(** * skald-mcp: the tool contract layer

    A shallow embedding of the two snapshots of the MCP server
    ([src/index.ts], three tools; [src/unnamed/part_001], six tools):
    the zod parameter schemas, the request shapers, the response
    formatters and the [try]/[catch] dispatch of every registered tool,
    followed by the properties of the specification that concern them. *)

From Stdlib Require Import ZArith QArith Qabs DecimalString.
From stdpp Require Import gmap strings list.

Local Open Scope Z_scope.
Set Warnings "-register-all,-clear-no-such-hyp".

(** ** JavaScript values and the built-ins the handlers rely on *)

Module JS.

(** A number is an IEEE double: a rational when finite.  Its value is kept
    exact, as the built-ins below are specified on the mathematical value. *)
Inductive number : Type :=
| NaN
| PosInfinity
| NegInfinity
| Finite (q : Q).

Inductive value : Type :=
| VUndefined
| VNull
| VBoolean (b : bool)
| VNumber (n : number)
| VString (s : string)
| VArray (elems : list value)
| VObject (props : list (string * value)).

(** A string is the sequence of its characters; [length] and [substring]
    count them.  The texts of the handlers are ASCII, but for the check
    mark of the confirmations, which only occurs inside fixed texts. *)

(** The line feed of the template literals and the double quote. *)
Definition LF : string := String (Ascii.ascii_of_nat 10) EmptyString.
Definition DQUOTE : string := String (Ascii.ascii_of_nat 34) EmptyString.

(** [Array.prototype.join] on an array of strings. *)
Definition join (sep : string) (parts : list string) : string :=
  String.concat sep parts.

(** [String.prototype.substring(start, end)]: the arguments are swapped
    when [start > end] and clamped to the length. *)
Definition substring (start stop : nat) (s : string) : string :=
  let lo := Nat.min start stop in
  let hi := Nat.max start stop in
  String.substring lo (hi - lo) s.

(** Decimal text of an integer, as [ToString] gives it below 10^21. *)
Definition decimal (z : Z) : string := NilZero.string_of_int (Z.to_int z).

(** Truthiness ([ToBoolean]) on the typed views the handlers test. *)
Class Truthy (A : Type) := truthy : A → bool.

#[global] Instance truthy_string : Truthy string :=
  fun s => match s with EmptyString => false | String _ _ => true end.
#[global] Instance truthy_bool : Truthy bool := fun b => b.
#[global] Instance truthy_list {A} : Truthy (list A) := fun _ => true.
#[global] Instance truthy_option {A} `{Truthy A} : Truthy (option A) :=
  fun o => match o with Some a => truthy a | None => false end.
#[global] Instance truthy_number : Truthy number :=
  fun n => match n with
           | NaN => false
           | Finite q => negb (Qeq_bool q 0)
           | PosInfinity | NegInfinity => true
           end.
#[global] Instance truthy_value : Truthy value :=
  fun v => match v with
           | VUndefined | VNull => false
           | VBoolean b => b
           | VNumber n => truthy n
           | VString s => truthy s
           | VArray _ | VObject _ => true
           end.

(** [a || b] where [a] is a string, and where [a] may be missing. *)
Definition or_else (a b : string) : string := if truthy a then a else b.
Definition or_else_opt (a : option string) (b : string) : string :=
  match a with
  | Some s => if truthy a then s else b
  | None => b
  end.

Section Engine.

(** [Number::toString] of a finite double that is not an integer below
    10^21 is the shortest decimal that reads back as the same double; the
    engine owns that algorithm, the handlers only concatenate its result. *)
Variable shortest_decimal : Q → string.

Definition is_integer (q : Q) : bool := (Qnum q mod Zpos (Qden q) =? 0)%Z.

Definition ten21 : Q := inject_Z (10 ^ 21).

Definition Number_toString (n : number) : string :=
  match n with
  | NaN => "NaN"
  | PosInfinity => "Infinity"
  | NegInfinity => "-Infinity"
  | Finite q =>
      if is_integer q && negb (Qle_bool ten21 (Qabs q))
      then decimal (Qnum q / Zpos (Qden q))
      else shortest_decimal q
  end.

(** [ToString] on values ([String(v)] and template literals); an array
    joins its elements with a comma, holes for [null] and [undefined]. *)
Fixpoint ToString (v : value) : string :=
  match v with
  | VUndefined => "undefined"
  | VNull => "null"
  | VBoolean true => "true"
  | VBoolean false => "false"
  | VNumber n => Number_toString n
  | VString s => s
  | VArray elems =>
      join "," (map (fun e => match e with
                              | VUndefined | VNull => EmptyString
                              | _ => ToString e
                              end) elems)
  | VObject _ => "[object Object]"
  end.

(** The integer [n] for which [n / 10^f - x] is closest to zero, the
    larger one on a tie ([x >= 0]). *)
Definition nearest_scaled (f : nat) (x : Q) : Z :=
  (2 * Qnum x * 10 ^ Z.of_nat f + Zpos (Qden x)) / (2 * Zpos (Qden x)).

Definition zeros (k : nat) : string := String.concat "" (replicate k "0").

(** [Number.prototype.toFixed(f)], for [0 <= f <= 100]. *)
Definition toFixed (f : nat) (x : number) : string :=
  match x with
  | Finite q =>
      let s := if Qle_bool 0 q then "" else "-" in
      let x := Qabs q in
      if Qle_bool ten21 x then s +:+ Number_toString (Finite x)
      else
        let m := decimal (nearest_scaled f x) in
        let m := match f with
                 | O => m
                 | S _ =>
                     let m := zeros (S f - String.length m) +:+ m in
                     let k := String.length m in
                     String.substring 0 (k - f) m +:+ "." +:+
                     String.substring (k - f) f m
                 end in
        s +:+ m
  | _ => Number_toString x
  end.

End Engine.

End JS.

(** ** The zod schemas the tools are registered with *)

Module Zod.
Import JS.

(** A schema parses a raw value into a typed one, or rejects it. *)
Definition schema (A : Type) : Type := value → option A.

Definition z_string : schema string :=
  fun v => match v with VString s => Some s | _ => None end.

(** [z.string().max(n)] *)
Definition z_string_max (n : nat) : schema string :=
  fun v => match v with
           | VString s => if (String.length s <=? n)%nat then Some s else None
           | _ => None
           end.

(** [a < b] on numbers; every comparison with [NaN] is false. *)
Definition num_lt (a b : number) : bool :=
  match a, b with
  | NaN, _ | _, NaN => false
  | _, NegInfinity | PosInfinity, _ => false
  | NegInfinity, _ | _, PosInfinity => true
  | Finite p, Finite q => negb (Qle_bool q p)
  end.

(** [z.number().min(lo).max(hi)]: [NaN] is not a number for zod; the
    [min] check fails when [data < lo], the [max] check when [data > hi]. *)
Definition z_number_min_max (lo hi : Z) : schema number :=
  fun v => match v with
           | VNumber NaN => None
           | VNumber n =>
               if num_lt n (Finite (inject_Z lo)) then None
               else if num_lt (Finite (inject_Z hi)) n then None
               else Some n
           | _ => None
           end.

(** [z.enum([...])], with the typed member each literal stands for. *)
Definition z_enum {A} (members : list (string * A)) : schema A :=
  fun v => match v with
           | VString s => snd <$> List.find (fun m => String.eqb (fst m) s) members
           | _ => None
           end.

(** [z.array(item)] *)
Definition z_array {A} (item : schema A) : schema (list A) :=
  fun v => match v with VArray elems => mapM item elems | _ => None end.

(** [z.record(z.any())] *)
Definition z_record_any : schema (list (string * value)) :=
  fun v => match v with VObject props => Some props | _ => None end.

(** [z.union([a, b])]: the first option that parses. *)
Definition z_union {A B} (a : schema A) (b : schema B) : schema (A + B) :=
  fun v => match a v with
           | Some x => Some (inl x)
           | None => inr <$> b v
           end.

(** [inner.optional()] *)
Definition z_optional {A} (inner : schema A) : schema (option A) :=
  fun v => match v with VUndefined => Some None | _ => Some <$> inner v end.

(** [inner.default(d)]: [undefined] is replaced by [d] before [inner]
    parses; the output is never [undefined]. *)
Definition z_default {A} (inner : schema (option A)) (d : value) : schema A :=
  fun v => mjoin (inner (match v with VUndefined => d | _ => v end)).

(** A property of the raw argument object; a missing key reads [undefined]. *)
Definition prop (raw : gmap string value) (key : string) : value :=
  default VUndefined (raw !! key).

End Zod.

(** ** Tool invocations: one asynchronous handler around one backend call *)

Module Tool.
Import JS.

(** What a [catch] clause can receive: an [Error] instance with its
    [message], or any other thrown value. *)
Inductive thrown : Type :=
| ThrowError (message : string)
| ThrowValue (v : value).

(** A settled promise of the backend client. *)
Inductive settled (R : Type) : Type :=
| Fulfilled (r : R)
| Rejected (e : thrown).
Arguments Fulfilled {R} r.
Arguments Rejected {R} e.

(** Synchronous code that may throw. *)
Inductive exn (A : Type) : Type :=
| Normal (a : A)
| Abrupt (e : thrown).
Arguments Normal {A} a.
Arguments Abrupt {A} e.

(** The handler of a tool over the client methods [E]: it writes trace
    lines with [console.error] and awaits client calls. *)
Inductive prog (E : Type → Type) (A : Type) : Type :=
| Ret (a : A)
| ConsoleError (label arg : string) (k : prog E A)
| Await {R : Type} (c : E R) (k : settled R → prog E A).
Arguments Ret {E A} a.
Arguments ConsoleError {E A} label arg k.
Arguments Await {E A R} c k.

(** How a [tools/call] request ends: the text block of the returned
    content, the message of the [Error] the handler threw, or a rejection
    by the parameter schema before the handler runs. *)
Inductive outcome : Type :=
| TextContent (text : string)
| ErrorThrown (message : string)
| InvalidArguments.

Inductive entry (E : Type → Type) : Type :=
| Traced (label arg : string)
| Called {R : Type} (c : E R).
Arguments Traced {E} label arg.
Arguments Called {E R} c.

Definition is_call {E} (e : entry E) : bool :=
  match e with Called _ => true | Traced _ _ => false end.

Section Run.
Context {E : Type → Type} {St : Type}.
(** The backend: any state, any answer to each call. *)
Variable backend : ∀ R, E R → St → settled R * St.

(** Runs a handler against the backend; the log lists, in order, the
    trace lines written and the client calls issued. *)
Fixpoint run {A} (p : prog E A) (st : St) : A * St * list (entry E) :=
  match p with
  | Ret a => (a, st, [])
  | ConsoleError label arg k =>
      let '(a, st', log) := run k st in (a, st', Traced label arg :: log)
  | Await c k =>
      let '(r, st1) := backend _ c st in
      let '(a, st2, log) := run (k r) st1 in (a, st2, Called c :: log)
  end.

Definition result_of {A} (p : prog E A) (st : St) : A := (run p st).1.1.
Definition log_of {A} (p : prog E A) (st : St) : list (entry E) := (run p st).2.
Definition calls_of {A} (p : prog E A) (st : St) : list (entry E) :=
  List.filter is_call (log_of p st).
End Run.

(** Conversion of the typed arguments into the values put in a payload. *)
Class ToValue (A : Type) := to_value : A → value.
#[global] Instance to_value_value : ToValue value := fun v => v.
#[global] Instance to_value_string : ToValue string := VString.
#[global] Instance to_value_number : ToValue number := VNumber.
#[global] Instance to_value_list {A} `{ToValue A} : ToValue (list A) :=
  fun l => VArray (to_value <$> l).
#[global] Instance to_value_option {A} `{ToValue A} : ToValue (option A) :=
  fun o => match o with Some a => to_value a | None => VUndefined end.
#[global] Instance to_value_props : ToValue (list (string * value)) := VObject.

(** [if (c) o.k = v;] *)
Definition assign_if (c : bool) (k : string) (v : value)
    (o : gmap string value) : gmap string value :=
  if c then <[k := v]> o else o.

(** [x !== undefined] on an optional argument. *)
Definition defined {A} (o : option A) : bool :=
  match o with Some _ => true | None => false end.

(** A registered tool: [server.tool(name, description, shape, handler)].
    [invoke] parses the raw arguments with the shape and, when they are
    valid, runs the handler. *)
Record tool (E : Type → Type) : Type := {
  name : string;
  description : string;
  invoke : gmap string value → prog E outcome
}.
Arguments name {E} t.
Arguments description {E} t.
Arguments invoke {E} t raw.

Definition find_tool {E} (tools : list (tool E)) (n : string) : option (tool E) :=
  List.find (fun t => String.eqb (name t) n) tools.

Section Engine.
Variable shortest_decimal : Q → string.

(** The [catch] clause every handler ends with:
    [error instanceof Error ? error.message : String(error)], thrown
    again behind the tool's prefix. *)
Definition errorMessage (error : thrown) : string :=
  match error with
  | ThrowError message => message
  | ThrowValue v => ToString shortest_decimal v
  end.

Definition rethrow (prefix : string) (error : thrown) : outcome :=
  ErrorThrown (prefix +:+ errorMessage error).

(** A search result as the client hands it over; [distance] is kept as
    a raw value, the formatter tests it against [null]. *)
Record SearchResult : Type := {
  title : string;
  uuid : string;
  summary : string;
  content_snippet : string;
  distance : value
}.

(** [result.distance.toFixed(4)]: a property read on [undefined] or
    [null] throws, and so does calling a property that is no function. *)
Definition distance_toFixed (d : value) : exn string :=
  match d with
  | VNumber n => Normal (toFixed shortest_decimal 4 n)
  | VUndefined =>
      Abrupt (ThrowError "Cannot read properties of undefined (reading 'toFixed')")
  | VNull =>
      Abrupt (ThrowError "Cannot read properties of null (reading 'toFixed')")
  | _ => Abrupt (ThrowError "result.distance.toFixed is not a function")
  end.

Definition is_null (v : value) : bool :=
  match v with VNull => true | _ => false end.

(** The callback of [response.results.map]. *)
Definition format_result (result : SearchResult) (idx : nat) : exn string :=
  let parts := [
    decimal (Z.of_nat (idx + 1)) +:+ ". " +:+ title result;
    "   UUID: " +:+ uuid result;
    "   Summary: " +:+ summary result;
    "   Snippet: " +:+ content_snippet result ] in
  if negb (is_null (distance result)) then
    match distance_toFixed (distance result) with
    | Normal d =>
        Normal (join LF (parts ++
          ["   Distance: " +:+ d +:+ " (lower is more relevant)"]))
    | Abrupt e => Abrupt e
    end
  else Normal (join LF parts).

(** [results.map(callback)]: stops at the first callback that throws. *)
Fixpoint map_results (results : list SearchResult) (idx : nat) : exn (list string) :=
  match results with
  | [] => Normal []
  | result :: rest =>
      match format_result result idx with
      | Abrupt e => Abrupt e
      | Normal block =>
          match map_results rest (S idx) with
          | Abrupt e => Abrupt e
          | Normal blocks => Normal (block :: blocks)
          end
      end
  end.

(** The text of the search tool, from [response.results]. *)
Definition format_search (results : list SearchResult) : exn string :=
  let resultText :=
    if (0 <? length results)%nat then
      match map_results results 0 with
      | Normal blocks => Normal (join (LF +:+ LF) blocks)
      | Abrupt e => Abrupt e
      end
    else Normal "No results found" in
  match resultText with
  | Normal resultText =>
      Normal ("Found " +:+ decimal (Z.of_nat (length results)) +:+
              " result(s):" +:+ LF +:+ LF +:+ resultText)
  | Abrupt e => Abrupt e
  end.

(** The text of the create-memo tool, from [response.ok]. *)
Definition format_create (title : string) (ok : bool) : string :=
  if ok then "✓ Memo " +:+ DQUOTE +:+ title +:+ DQUOTE +:+ " created successfully!"
  else "Failed to create memo".

End Engine.

End Tool.

(** ** skald-create-memo, the same text in both snapshots *)

Module CreateMemo.
Import JS Zod Tool.

Record Args : Type := {
  title : string;
  content : string;
  project_id : option string;
  metadata : option (list (string * value));
  reference_id : option string;
  tags : option (list string);
  source : option string
}.

Definition parse (raw : gmap string value) : option Args :=
  title ← z_string_max 255 (prop raw "title");
  content ← z_string (prop raw "content");
  project_id ← z_optional z_string (prop raw "project_id");
  metadata ← z_optional z_record_any (prop raw "metadata");
  reference_id ← z_optional (z_string_max 255) (prop raw "reference_id");
  tags ← z_optional (z_array z_string) (prop raw "tags");
  source ← z_optional (z_string_max 255) (prop raw "source");
  Some {| title := title; content := content; project_id := project_id;
          metadata := metadata; reference_id := reference_id;
          tags := tags; source := source |}.

Definition memoData (args : Args) : gmap string value :=
  let memoData : gmap string value :=
    <["content" := to_value (content args)]> {["title" := to_value (title args)]} in
  (* Add optional fields if provided *)
  let memoData :=
    assign_if (truthy (project_id args)) "project_id" (to_value (project_id args)) memoData in
  let memoData :=
    assign_if (truthy (metadata args)) "metadata" (to_value (metadata args)) memoData in
  let memoData :=
    assign_if (truthy (reference_id args)) "reference_id" (to_value (reference_id args)) memoData in
  let memoData :=
    assign_if (truthy (tags args)) "tags" (to_value (tags args)) memoData in
  let memoData :=
    assign_if (truthy (source args)) "source" (to_value (source args)) memoData in
  memoData.

Record Response : Type := { ok : bool }.

Section Handler.
Variable shortest_decimal : Q → string.
Context {E : Type → Type}.
(** [skald.createMemo] of the client at hand. *)
Variable createMemo : gmap string value → E Response.

Definition handler (args : Args) : prog E outcome :=
  ConsoleError "Debug - Creating Skald memo:" (title args)
    (Await (createMemo (memoData args)) (fun r =>
       Ret match r with
           | Fulfilled response => TextContent (format_create (title args) (ok response))
           | Rejected error =>
               rethrow shortest_decimal "Failed to create Skald memo: " error
           end)).

Definition invoke (raw : gmap string value) : prog E outcome :=
  match parse raw with
  | Some args => handler args
  | None => Ret InvalidArguments
  end.
End Handler.

Definition description : string :=
  "Create a new memo in Skald that will be automatically processed (summarized, tagged, chunked, and indexed for search)".

End CreateMemo.

(** ** [src/index.ts]: the three-tool server *)

Module Minimal.
Import JS Zod Tool.

Record ChatResponse : Type := { response : string }.
Record SearchResponse : Type := { results : list SearchResult }.

(** The methods of the [Skald] client this snapshot calls. *)
Inductive Skald : Type → Type :=
| chat (chatParams : gmap string value) : Skald ChatResponse
| search (searchParams : gmap string value) : Skald SearchResponse
| createMemo (memoData : gmap string value) : Skald CreateMemo.Response.

Module Chat.
Record Args : Type := { query : string; project_id : option string }.

Definition parse (raw : gmap string value) : option Args :=
  query ← z_string (prop raw "query");
  project_id ← z_optional z_string (prop raw "project_id");
  Some {| query := query; project_id := project_id |}.

Definition chatParams (args : Args) : gmap string value :=
  let chatParams : gmap string value := {["query" := to_value (query args)]} in
  assign_if (truthy (project_id args)) "project_id" (to_value (project_id args)) chatParams.

Section Handler.
Variable shortest_decimal : Q → string.

Definition handler (args : Args) : prog Skald outcome :=
  ConsoleError "Debug - Asking Skald chat:" (query args)
    (Await (chat (chatParams args)) (fun r =>
       Ret match r with
           | Fulfilled response =>
               TextContent (or_else (Minimal.response response) "No response received")
           | Rejected error =>
               rethrow shortest_decimal "Failed to get response from Skald chat: " error
           end)).

Definition invoke (raw : gmap string value) : prog Skald outcome :=
  match parse raw with
  | Some args => handler args
  | None => Ret InvalidArguments
  end.
End Handler.
End Chat.

Module Search.
Inductive SearchMethod : Type :=
| chunk_vector_search
| title_contains
| title_startswith.

Definition search_methods : list (string * SearchMethod) :=
  [("chunk_vector_search", chunk_vector_search);
   ("title_contains", title_contains);
   ("title_startswith", title_startswith)].

#[global] Instance to_value_method : ToValue SearchMethod :=
  fun m => VString match m with
                   | chunk_vector_search => "chunk_vector_search"
                   | title_contains => "title_contains"
                   | title_startswith => "title_startswith"
                   end.

Record Args : Type := {
  query : string;
  search_method : SearchMethod;
  limit : number;
  tags : option (list string)
}.

Definition parse (raw : gmap string value) : option Args :=
  query ← z_string (prop raw "query");
  search_method ← z_enum search_methods (prop raw "search_method");
  limit ← z_default (z_optional (z_number_min_max 1 50))
            (VNumber (Finite (inject_Z 10))) (prop raw "limit");
  tags ← z_optional (z_array z_string) (prop raw "tags");
  Some {| query := query; search_method := search_method;
          limit := limit; tags := tags |}.

Definition searchParams (args : Args) : gmap string value :=
  let searchParams : gmap string value :=
    <["limit" := to_value (limit args)]>
      (<["search_method" := to_value (search_method args)]>
         {["query" := to_value (query args)]}) in
  assign_if (truthy (tags args)) "tags" (to_value (tags args)) searchParams.

Section Handler.
Variable shortest_decimal : Q → string.

Definition handler (args : Args) : prog Skald outcome :=
  ConsoleError "Debug - Searching Skald memos:" (query args)
    (Await (search (searchParams args)) (fun r =>
       Ret match r with
           | Fulfilled response =>
               match format_search shortest_decimal (results response) with
               | Normal text => TextContent text
               | Abrupt error =>
                   rethrow shortest_decimal "Failed to search Skald memos: " error
               end
           | Rejected error =>
               rethrow shortest_decimal "Failed to search Skald memos: " error
           end)).

Definition invoke (raw : gmap string value) : prog Skald outcome :=
  match parse raw with
  | Some args => handler args
  | None => Ret InvalidArguments
  end.
End Handler.
End Search.

Section Server.
Variable shortest_decimal : Q → string.

(** The [server.tool] registrations, in source order. *)
Definition tools : list (tool Skald) := [
  {| name := "skald-chat";
     description := "Ask a question to your Skald knowledge base and get an AI-generated response with inline citations";
     invoke := Chat.invoke shortest_decimal |};
  {| name := "skald-search";
     description := "Search through your Skald memos using various search methods (semantic search, title contains, title starts with)";
     invoke := Search.invoke shortest_decimal |};
  {| name := "skald-create-memo";
     description := CreateMemo.description;
     invoke := CreateMemo.invoke shortest_decimal createMemo |} ].
End Server.

End Minimal.

(** ** [src/unnamed/part_001]: the server with filters and memo tools *)

Module Extended.
Import JS Zod Tool.

(** *** The reusable filter schema *)

Inductive Operator : Type :=
| Op_eq | Op_neq | Op_contains | Op_startswith | Op_endswith | Op_in | Op_not_in.

Inductive FilterKind : Type := native_field | custom_metadata.

Definition operators : list (string * Operator) :=
  [("eq", Op_eq); ("neq", Op_neq); ("contains", Op_contains);
   ("startswith", Op_startswith); ("endswith", Op_endswith);
   ("in", Op_in); ("not_in", Op_not_in)].

Definition filter_types : list (string * FilterKind) :=
  [("native_field", native_field); ("custom_metadata", custom_metadata)].

Record Filter : Type := {
  field : string;
  operator : Operator;
  filter_value : string + list string;
  filter_type : FilterKind
}.

Definition z_filter : schema Filter :=
  fun v => match v with
           | VObject props =>
               let raw : gmap string value := list_to_map props in
               field ← z_string (prop raw "field");
               operator ← z_enum operators (prop raw "operator");
               value ← z_union z_string (z_array z_string) (prop raw "value");
               filter_type ← z_enum filter_types (prop raw "filter_type");
               Some {| field := field; operator := operator;
                       filter_value := value; filter_type := filter_type |}
           | _ => None
           end.

Definition filterSchema : schema (option (list Filter)) :=
  z_optional (z_array z_filter).

#[global] Instance to_value_operator : ToValue Operator :=
  fun o => VString match o with
                   | Op_eq => "eq" | Op_neq => "neq" | Op_contains => "contains"
                   | Op_startswith => "startswith" | Op_endswith => "endswith"
                   | Op_in => "in" | Op_not_in => "not_in"
                   end.
#[global] Instance to_value_kind : ToValue FilterKind :=
  fun k => VString match k with
                   | native_field => "native_field"
                   | custom_metadata => "custom_metadata"
                   end.
#[global] Instance to_value_filter : ToValue Filter :=
  fun f => VObject [
    ("field", to_value (field f));
    ("operator", to_value (operator f));
    ("value", match filter_value f with
              | inl s => to_value s
              | inr l => to_value l
              end);
    ("filter_type", to_value (filter_type f)) ].

(** *** The identifier kind of the memo tools *)

Inductive IdType : Type := memo_uuid | reference_id.

Definition id_types : list (string * IdType) :=
  [("memo_uuid", memo_uuid); ("reference_id", reference_id)].

(** [z.enum(['memo_uuid', 'reference_id']).optional().default('memo_uuid')] *)
Definition z_id_type : schema IdType :=
  z_default (z_optional (z_enum id_types)) (VString "memo_uuid").

(** *** What the client returns *)

Record SearchResponse : Type := { results : list SearchResult }.
Record UpdateResponse : Type := { ok : bool }.
Record MemoTag : Type := { tag : string }.
Record MemoChunk : Type := { chunk_index : Z; chunk_content : string }.
Record Memo : Type := {
  uuid : string;
  title : string;
  content : string;
  summary : string;
  tags : list MemoTag;
  client_reference_id : option string;
  source : option string;
  type : string;
  created_at : string;
  updated_at : string;
  chunks : list MemoChunk
}.

(** The methods of the [Skald] client this snapshot calls.  [chat]
    resolves to the answer text itself; what [deleteMemo] resolves to is
    never looked at. *)
Inductive Skald : Type → Type :=
| chat (chatParams : gmap string value) : Skald string
| search (searchParams : gmap string value) : Skald SearchResponse
| createMemo (memoData : gmap string value) : Skald CreateMemo.Response
| getMemo (memo_id : string) (id_type : IdType) : Skald Memo
| updateMemo (memo_id : string) (updateData : gmap string value)
    (id_type : IdType) : Skald UpdateResponse
| deleteMemo (memo_id : string) (id_type : IdType) : Skald value.

Module Chat.
Record Args : Type := {
  query : string;
  project_id : option string;
  filters : option (list Filter)
}.

Definition parse (raw : gmap string value) : option Args :=
  query ← z_string (prop raw "query");
  project_id ← z_optional z_string (prop raw "project_id");
  filters ← filterSchema (prop raw "filters");
  Some {| query := query; project_id := project_id; filters := filters |}.

Definition chatParams (args : Args) : gmap string value :=
  let chatParams : gmap string value := {["query" := to_value (query args)]} in
  let chatParams :=
    assign_if (truthy (project_id args)) "project_id" (to_value (project_id args)) chatParams in
  let chatParams :=
    assign_if (truthy (filters args)) "filters" (to_value (filters args)) chatParams in
  chatParams.

Section Handler.
Variable shortest_decimal : Q → string.

Definition handler (args : Args) : prog Skald outcome :=
  ConsoleError "Debug - Asking Skald chat:" (query args)
    (Await (chat (chatParams args)) (fun r =>
       Ret match r with
           | Fulfilled response =>
               TextContent (or_else response "No response received")
           | Rejected error =>
               rethrow shortest_decimal "Failed to get response from Skald chat: " error
           end)).

Definition invoke (raw : gmap string value) : prog Skald outcome :=
  match parse raw with
  | Some args => handler args
  | None => Ret InvalidArguments
  end.
End Handler.
End Chat.

Module Search.
Inductive SearchMethod : Type := chunk_semantic_search.

Definition search_methods : list (string * SearchMethod) :=
  [("chunk_semantic_search", chunk_semantic_search)].

#[global] Instance to_value_method : ToValue SearchMethod :=
  fun m => VString match m with chunk_semantic_search => "chunk_semantic_search" end.

Record Args : Type := {
  query : string;
  search_method : SearchMethod;
  limit : number;
  filters : option (list Filter)
}.

Definition parse (raw : gmap string value) : option Args :=
  query ← z_string (prop raw "query");
  search_method ← z_enum search_methods (prop raw "search_method");
  limit ← z_default (z_optional (z_number_min_max 1 50))
            (VNumber (Finite (inject_Z 10))) (prop raw "limit");
  filters ← filterSchema (prop raw "filters");
  Some {| query := query; search_method := search_method;
          limit := limit; filters := filters |}.

Definition searchParams (args : Args) : gmap string value :=
  let searchParams : gmap string value :=
    <["limit" := to_value (limit args)]>
      (<["search_method" := to_value (search_method args)]>
         {["query" := to_value (query args)]}) in
  assign_if (truthy (filters args)) "filters" (to_value (filters args)) searchParams.

Section Handler.
Variable shortest_decimal : Q → string.

Definition handler (args : Args) : prog Skald outcome :=
  ConsoleError "Debug - Searching Skald memos:" (query args)
    (Await (search (searchParams args)) (fun r =>
       Ret match r with
           | Fulfilled response =>
               match format_search shortest_decimal (results response) with
               | Normal text => TextContent text
               | Abrupt error =>
                   rethrow shortest_decimal "Failed to search Skald memos: " error
               end
           | Rejected error =>
               rethrow shortest_decimal "Failed to search Skald memos: " error
           end)).

Definition invoke (raw : gmap string value) : prog Skald outcome :=
  match parse raw with
  | Some args => handler args
  | None => Ret InvalidArguments
  end.
End Handler.
End Search.

Module GetMemo.
Record Args : Type := { memo_id : string; id_type : IdType }.

Definition parse (raw : gmap string value) : option Args :=
  memo_id ← z_string (prop raw "memo_id");
  id_type ← z_id_type (prop raw "id_type");
  Some {| memo_id := memo_id; id_type := id_type |}.

Section Handler.
Variable shortest_decimal : Q → string.

(** The text of one chunk line. *)
Definition format_chunk (c : MemoChunk) : string :=
  "Chunk " +:+ Number_toString shortest_decimal (Finite (inject_Z (chunk_index c))) +:+
  ": " +:+ substring 0 100 (chunk_content c) +:+ "...".

(** The text of the get-memo tool. *)
Definition format_memo (memo : Memo) : string :=
  let tagsText := join ", " (map tag (tags memo)) in
  let chunksText := join LF (map format_chunk (chunks memo)) in
  join LF (List.filter truthy [
    "Memo: " +:+ title memo;
    "UUID: " +:+ uuid memo;
    "Created: " +:+ created_at memo;
    "Updated: " +:+ updated_at memo;
    "Summary: " +:+ summary memo;
    "Content: " +:+ content memo;
    "Tags: " +:+ or_else tagsText "None";
    "Client Reference ID: " +:+ or_else_opt (client_reference_id memo) "None";
    "Source: " +:+ or_else_opt (source memo) "None";
    "Type: " +:+ type memo;
    "Chunks: " +:+ decimal (Z.of_nat (length (chunks memo)));
    if truthy chunksText then LF +:+ chunksText else "" ]).

Definition handler (args : Args) : prog Skald outcome :=
  ConsoleError "Debug - Getting Skald memo:" (memo_id args)
    (Await (getMemo (memo_id args) (id_type args)) (fun r =>
       Ret match r with
           | Fulfilled memo => TextContent (format_memo memo)
           | Rejected error =>
               rethrow shortest_decimal "Failed to get Skald memo: " error
           end)).

Definition invoke (raw : gmap string value) : prog Skald outcome :=
  match parse raw with
  | Some args => handler args
  | None => Ret InvalidArguments
  end.
End Handler.
End GetMemo.

Module UpdateMemo.
Record Args : Type := {
  memo_id : string;
  id_type : IdType;
  title : option string;
  content : option string;
  metadata : option (list (string * value));
  client_reference_id : option string;
  source : option string;
  expiration_date : option string
}.

Definition parse (raw : gmap string value) : option Args :=
  memo_id ← z_string (prop raw "memo_id");
  id_type ← z_id_type (prop raw "id_type");
  title ← z_optional (z_string_max 255) (prop raw "title");
  content ← z_optional z_string (prop raw "content");
  metadata ← z_optional z_record_any (prop raw "metadata");
  client_reference_id ← z_optional (z_string_max 255) (prop raw "client_reference_id");
  source ← z_optional (z_string_max 255) (prop raw "source");
  expiration_date ← z_optional z_string (prop raw "expiration_date");
  Some {| memo_id := memo_id; id_type := id_type; title := title;
          content := content; metadata := metadata;
          client_reference_id := client_reference_id; source := source;
          expiration_date := expiration_date |}.

Definition updateData (args : Args) : gmap string value :=
  let updateData : gmap string value := ∅ in
  (* Only add fields that were provided *)
  let updateData :=
    assign_if (defined (title args)) "title" (to_value (title args)) updateData in
  let updateData :=
    assign_if (defined (content args)) "content" (to_value (content args)) updateData in
  let updateData :=
    assign_if (defined (metadata args)) "metadata" (to_value (metadata args)) updateData in
  let updateData :=
    assign_if (defined (client_reference_id args)) "client_reference_id"
      (to_value (client_reference_id args)) updateData in
  let updateData :=
    assign_if (defined (source args)) "source" (to_value (source args)) updateData in
  let updateData :=
    assign_if (defined (expiration_date args)) "expiration_date"
      (to_value (expiration_date args)) updateData in
  updateData.

Definition format_update (memo_id : string) (ok : bool) : string :=
  if ok then "✓ Memo " +:+ DQUOTE +:+ memo_id +:+ DQUOTE +:+ " updated successfully!"
  else "Failed to update memo".

Section Handler.
Variable shortest_decimal : Q → string.

Definition handler (args : Args) : prog Skald outcome :=
  ConsoleError "Debug - Updating Skald memo:" (memo_id args)
    (Await (updateMemo (memo_id args) (updateData args) (id_type args)) (fun r =>
       Ret match r with
           | Fulfilled response =>
               TextContent (format_update (memo_id args) (ok response))
           | Rejected error =>
               rethrow shortest_decimal "Failed to update Skald memo: " error
           end)).

Definition invoke (raw : gmap string value) : prog Skald outcome :=
  match parse raw with
  | Some args => handler args
  | None => Ret InvalidArguments
  end.
End Handler.
End UpdateMemo.

Module DeleteMemo.
Record Args : Type := { memo_id : string; id_type : IdType }.

Definition parse (raw : gmap string value) : option Args :=
  memo_id ← z_string (prop raw "memo_id");
  id_type ← z_id_type (prop raw "id_type");
  Some {| memo_id := memo_id; id_type := id_type |}.

Definition format_delete (memo_id : string) : string :=
  "✓ Memo " +:+ DQUOTE +:+ memo_id +:+ DQUOTE +:+ " deleted successfully!".

Section Handler.
Variable shortest_decimal : Q → string.

Definition handler (args : Args) : prog Skald outcome :=
  ConsoleError "Debug - Deleting Skald memo:" (memo_id args)
    (Await (deleteMemo (memo_id args) (id_type args)) (fun r =>
       Ret match r with
           | Fulfilled _ => TextContent (format_delete (memo_id args))
           | Rejected error =>
               rethrow shortest_decimal "Failed to delete Skald memo: " error
           end)).

Definition invoke (raw : gmap string value) : prog Skald outcome :=
  match parse raw with
  | Some args => handler args
  | None => Ret InvalidArguments
  end.
End Handler.
End DeleteMemo.

Section Server.
Variable shortest_decimal : Q → string.

(** The [server.tool] registrations, in source order. *)
Definition tools : list (tool Skald) := [
  {| name := "skald-chat";
     description := "Ask a question to your Skald knowledge base and get an AI-generated response with inline citations. Supports optional filters to narrow search context";
     invoke := Chat.invoke shortest_decimal |};
  {| name := "skald-search";
     description := "Search through your Skald memos using semantic search on memo chunks with optional filters";
     invoke := Search.invoke shortest_decimal |};
  {| name := "skald-create-memo";
     description := CreateMemo.description;
     invoke := CreateMemo.invoke shortest_decimal createMemo |};
  {| name := "skald-get-memo";
     description := "Retrieve a memo by UUID or client reference ID with full content, summary, tags, and chunks";
     invoke := GetMemo.invoke shortest_decimal |};
  {| name := "skald-update-memo";
     description := "Update an existing memo by UUID or client reference ID. If content is updated, the memo will be reprocessed";
     invoke := UpdateMemo.invoke shortest_decimal |};
  {| name := "skald-delete-memo";
     description := "Permanently delete a memo by UUID or client reference ID. This deletes the memo and all associated data (content, summary, tags, chunks)";
     invoke := DeleteMemo.invoke shortest_decimal |} ].

End Server.

End Extended.

(** ** Start-up, the same text in both snapshots *)

Module Startup.
Import JS Tool.

(** What the process writes with [console.error]: a text, or a label
    followed by the value that was caught. *)
Inductive line : Type :=
| Text (text : string)
| Caught (label : string) (error : thrown).

(** How start-up ends: [process.exit(code)], or a server connected to
    the transport with a client built from the key. *)
Inductive boot : Type :=
| Exited (code : Z) (stderr : list line)
| Running (key : value) (stderr : list line).

(** [args.key || process.env.SKALD_API_KEY]: [key] is what minimist
    parsed for [--key] ([undefined] when absent), [env] the variable. *)
Definition apiKey (key : value) (env : option string) : value :=
  if truthy key then key else to_value env.

(** The module body down to [main().catch(...)]; [connect] is how
    [server.connect(transport)] settles. *)
Definition start (key : value) (env : option string) (connect : settled unit) : boot :=
  let apiKey := apiKey key env in
  if negb (truthy apiKey) then
    Exited 1 [Text "Error: SKALD_API_KEY environment variable or --key argument is required"]
  else
    match connect with
    | Fulfilled _ => Running apiKey [Text "Skald MCP Server running on stdio"]
    | Rejected error => Exited 1 [Caught "Fatal error in main():" error]
    end.

End Startup.

(** * Vocabulary of the properties *)

Module Spec.
Import JS Zod Tool.

(** The payload [p] carries key [k] exactly when the optional argument
    [o] was supplied with a value that passes [guard], and then carries
    that value itself. *)
Definition forwards {A} `{ToValue A} (p : gmap string value) (k : string)
    (o : option A) (guard : A → Prop) : Prop :=
  ∀ v, p !! k = Some v ↔ ∃ a, o = Some a ∧ guard a ∧ v = to_value a.

(** The reading of "present if and only if supplied with a defined
    value" for one key of one payload. *)
Definition present_iff_supplied {A} (p : gmap string value) (k : string)
    (o : option A) : Prop :=
  is_Some (p !! k) ↔ is_Some o.

Definition nonempty (s : string) : Prop := s ≠ "".




(** What the search formatter can render as a distance. *)
Definition number_or_null (v : value) : Prop :=
  v = VNull ∨ ∃ n, v = VNumber n.

(** The four lines every result block starts with. *)
Definition head_lines (result : SearchResult) (idx : nat) : list string :=
  [ decimal (Z.of_nat (idx + 1)) +:+ ". " +:+ title result;
    "   UUID: " +:+ uuid result;
    "   Summary: " +:+ summary result;
    "   Snippet: " +:+ content_snippet result ].

(** [m * 2^e] is a binary64 value nearest to [x]: a 53-bit significand
    and at most half a unit in the last place away. *)
Definition binary64_nearest (m e : Z) (x : Q) : Prop :=
  (2 ^ 52 ≤ m < 2 ^ 53)%Z ∧
  (Qabs (inject_Z m * (2 # 1) ^ e - x) <= (2 # 1) ^ (e - 1))%Q.

(** The double that the literal [0.12345] denotes:
    [0x1.f9a6b50b0f27cp-4], just above the decimal. *)
Definition double_0_12345 : Q := inject_Z 8895509983982204 * (2 # 1) ^ (-56).

(** A backend without state whose every call rejects with [e], and one
    whose [createMemo] and [deleteMemo] report a failure in their answer. *)
Definition failing {E : Type → Type} (e : thrown)
    : ∀ R, E R → unit → settled R * unit :=
  fun R _ st => (Rejected e, st).

Definition refusing : ∀ R, Extended.Skald R → unit → settled R * unit :=
  fun R c st =>
    match c in Extended.Skald R return settled R * unit with
    | Extended.chat _ => (Fulfilled "", st)
    | Extended.search _ => (Fulfilled {| Extended.results := [] |}, st)
    | Extended.createMemo _ => (Fulfilled {| CreateMemo.ok := false |}, st)
    | Extended.getMemo _ _ => (Rejected (ThrowError "not found"), st)
    | Extended.updateMemo _ _ _ => (Fulfilled {| Extended.ok := false |}, st)
    | Extended.deleteMemo _ _ =>
        (Fulfilled (VObject [("ok", VBoolean false)]), st)
    end.

(** The invocation ends at the schema: whatever the backend, nothing is
    traced, no client method is called and the state is left alone. *)
Definition rejects {E} (p : prog E outcome) : Prop :=
  ∀ (St : Type) (backend : ∀ R, E R → St → settled R * St) (st : St),
    run backend p st = (InvalidArguments, st, []).

(** [v] is none of the literals of an enumeration. *)
Definition not_member {A} (members : list (string * A)) (v : value) : Prop :=
  ∀ s, v = VString s → s ∉ (fst <$> members).
Definition any {A} (a : A) : Prop := True.

End Spec.

(** * Vocabulary of the further properties *)

Module Contract.
Import JS Zod Tool.

(** The parameters each registration declares: name of the tool, keys
    without [.optional()], keys with it. *)
Definition minimal_parameters : list (string * (list string * list string)) :=
  [ ("skald-chat", (["query"], ["project_id"]));
    ("skald-search", (["query"; "search_method"], ["limit"; "tags"]));
    ("skald-create-memo",
     (["title"; "content"],
      ["project_id"; "metadata"; "reference_id"; "tags"; "source"])) ].

Definition extended_parameters : list (string * (list string * list string)) :=
  [ ("skald-chat", (["query"], ["project_id"; "filters"]));
    ("skald-search", (["query"; "search_method"], ["limit"; "filters"]));
    ("skald-create-memo",
     (["title"; "content"],
      ["project_id"; "metadata"; "reference_id"; "tags"; "source"]));
    ("skald-get-memo", (["memo_id"], ["id_type"]));
    ("skald-update-memo",
     (["memo_id"],
      ["id_type"; "title"; "content"; "metadata"; "client_reference_id";
       "source"; "expiration_date"]));
    ("skald-delete-memo", (["memo_id"], ["id_type"])) ].

Definition required_of (table : list (string * (list string * list string)))
    (tool_name : string) : list string :=
  default [] ((λ e, e.2.1) <$> List.find (λ e, String.eqb e.1 tool_name) table).

Definition optional_of (table : list (string * (list string * list string)))
    (tool_name : string) : list string :=
  default [] ((λ e, e.2.2) <$> List.find (λ e, String.eqb e.1 tool_name) table).

(** The prefix of the error each tool throws from its [catch] clause. *)
Definition failure_prefix (tool_name : string) : string :=
  if String.eqb tool_name "skald-chat" then "Failed to get response from Skald chat: "
  else if String.eqb tool_name "skald-search" then "Failed to search Skald memos: "
  else if String.eqb tool_name "skald-create-memo" then "Failed to create Skald memo: "
  else if String.eqb tool_name "skald-get-memo" then "Failed to get Skald memo: "
  else if String.eqb tool_name "skald-update-memo" then "Failed to update Skald memo: "
  else if String.eqb tool_name "skald-delete-memo" then "Failed to delete Skald memo: "
  else "".

(** The log of a handler that ran: one trace line, then one client call. *)
Definition one_traced_call {E} (log : list (entry E)) : Prop :=
  ∃ (label arg : string) (R : Type) (c : E R), log = [Traced label arg; Called c].




(** How an [id_type] argument reads: the default when it is missing,
    the kind it names when it is one of the two literals. *)
Definition id_type_read (v : value) : option Extended.IdType :=
  match v with
  | VUndefined => Some Extended.memo_uuid
  | VString s =>
      if String.eqb s "memo_uuid" then Some Extended.memo_uuid
      else if String.eqb s "reference_id" then Some Extended.reference_id
      else None
  | _ => None
  end.


End Contract.

(** * Properties *)

Import JS Zod Tool Spec.

(** ** Payload lookups *)

Lemma lookup_assign_if (c : bool) (k k' : string) (v : value) (o : gmap string value) :
  assign_if c k v o !! k' = if c && bool_decide (k = k') then Some v else o !! k'.
Proof.
  unfold assign_if. destruct c; simpl; [|done].
  case_bool_decide; subst.
  - apply lookup_insert_eq.
  - by apply lookup_insert_ne.
Qed.

Lemma truthy_option_string (o : option string) :
  truthy o = true ↔ ∃ s, o = Some s ∧ s ≠ "".
Proof.
  split.
  - destruct o as [[|c s]|]; simpl; intros H; try discriminate H.
    eexists; split; [reflexivity | discriminate].
  - intros (s & -> & Hs). destruct s; [by destruct Hs | reflexivity].
Qed.

Lemma truthy_option_list {A} (o : option (list A)) :
  truthy o = true ↔ is_Some o.
Proof.
  split.
  - destruct o; simpl; intros H; [by eexists | discriminate H].
  - intros [l ->]. reflexivity.
Qed.

Lemma defined_is_Some {A} (o : option A) : defined o = true ↔ is_Some o.
Proof.
  split.
  - destruct o; simpl; intros H; [by eexists | discriminate H].
  - intros [l ->]. reflexivity.
Qed.

(** A guarded assignment of an optional string forwards it when it is
    not empty. *)
Lemma forwards_truthy_string (o : option string) (k : string) (p : gmap string value) :
  p !! k = None →
  forwards (assign_if (truthy o) k (to_value o) p) k o nonempty.
Proof.
  intros Hp v. rewrite lookup_assign_if, bool_decide_eq_true_2, andb_true_r by done.
  destruct o as [[|c s]|]; simpl; rewrite ?Hp; split.
  - done.
  - intros (a & [= <-] & Ha & _). by destruct Ha.
  - intros [= <-]. eexists; split; [done|]. split; [discriminate|done].
  - intros (a & [= <-] & _ & ->). done.
  - done.
  - intros (a & ? & _). done.
Qed.

(** A guarded assignment of an optional array or object forwards it
    whenever it was supplied, and so does a [!== undefined] guard. *)
Lemma forwards_present {A} `{ToValue A} (c : bool) (o : option A) (k : string)
    (p : gmap string value) :
  p !! k = None →
  c = defined o →
  forwards (assign_if c k (to_value o) p) k o any.
Proof.
  intros Hp -> v. rewrite lookup_assign_if, bool_decide_eq_true_2, andb_true_r by done.
  destruct o as [a|]; simpl; rewrite ?Hp; split.
  - intros [= <-]. by exists a.
  - intros (a' & [= <-] & _ & ->). done.
  - done.
  - intros (a' & ? & _). done.
Qed.

(** Assignments to other keys do not disturb what a key forwards. *)
Lemma forwards_assign_ne {A} `{ToValue A} (c : bool) (k k' : string) (w : value)
    (p : gmap string value) (o : option A) (guard : A → Prop) :
  k' ≠ k →
  forwards p k o guard →
  forwards (assign_if c k' w p) k o guard.
Proof.
  intros Hne Hf v. rewrite lookup_assign_if, bool_decide_eq_false_2 by done.
  rewrite andb_false_r. apply Hf.
Qed.

Lemma dom_assign_if (c : bool) (k : string) (v : value) (p : gmap string value)
    (keys : gset string) :
  k ∈ keys → dom p ⊆ keys → dom (assign_if c k v p) ⊆ keys.
Proof. destruct c; simpl; [rewrite dom_insert_L|]; set_solver. Qed.

Lemma truthy_defined_list {A} (o : option (list A)) : truthy o = defined o.
Proof. by destruct o. Qed.

(** Lookup of a key no assignment of the shaper writes. *)
Ltac lookup_other :=
  repeat (rewrite lookup_assign_if, bool_decide_eq_false_2, andb_false_r by done);
  repeat (rewrite lookup_insert_ne by done);
  first [ apply lookup_empty | by apply lookup_singleton_ne | done ].

(** Lookup of a required key, written first and never overwritten. *)
Ltac lookup_required :=
  repeat (rewrite lookup_assign_if, bool_decide_eq_false_2, andb_false_r by done);
  repeat (rewrite lookup_insert_ne by done);
  first [ apply lookup_insert_eq | apply lookup_singleton_eq ].

Ltac forwards_optional :=
  repeat (apply forwards_assign_ne; [done|]);
  first [ apply forwards_truthy_string; lookup_other
        | apply forwards_present; [lookup_other | first [apply truthy_defined_list | done]] ].

Ltac dom_bound :=
  repeat (apply dom_assign_if; [set_solver|]);
  rewrite ?dom_insert_L, ?dom_singleton_L, ?dom_empty_L; set_solver.

(** ** The formatters on small inputs *)

Example search_without_results (shortest_decimal : Q → string) :
  format_search shortest_decimal []
  = Normal ("Found 0 result(s):" +:+ LF +:+ LF +:+ "No results found").
Proof. reflexivity. Qed.

Example search_with_two_results :
  format_search (fun _ => "")
    [ {| title := "Notes"; uuid := "u-1"; summary := "Misc";
         content_snippet := "todo"; distance := VNull |};
      {| title := "Roadmap"; uuid := "u-2"; summary := "Plans";
         content_snippet := "Q3"; distance := VNumber (Finite (5 # 2)) |} ]
  = Normal (join LF [ "Found 2 result(s):"; "";
                      "1. Notes"; "   UUID: u-1"; "   Summary: Misc";
                      "   Snippet: todo"; "";
                      "2. Roadmap"; "   UUID: u-2"; "   Summary: Plans";
                      "   Snippet: Q3";
                      "   Distance: 2.5000 (lower is more relevant)" ]).
Proof. vm_compute. reflexivity. Qed.

Example toFixed_samples :
  toFixed (fun _ => "") 4 (Finite (12345 # 100000)) = "0.1235" ∧
  toFixed (fun _ => "") 4 (Finite (-5 # 2)) = "-2.5000" ∧
  toFixed (fun _ => "") 4 (Finite (-1 # 100000)) = "-0.0000" ∧
  toFixed (fun _ => "") 4 (Finite (123456789 # 1)) = "123456789.0000" ∧
  toFixed (fun _ => "") 0 (Finite (5 # 2)) = "3" ∧
  toFixed (fun _ => "") 4 NaN = "NaN".
Proof. vm_compute. repeat split. Qed.

Example String_of_thrown_values :
  ToString (fun _ => "") (VArray [VNumber (Finite (4 # 2)); VNull; VString "a"]) = "2,,a" ∧
  ToString (fun _ => "") (VObject [("message", VString "boom")]) = "[object Object]".
Proof. vm_compute. repeat split. Qed.

Example chat_without_answer :
  result_of (λ R (c : Extended.Skald R) (st : unit),
               match c in Extended.Skald R return settled R * unit with
               | Extended.chat _ => (Fulfilled "", st)
               | _ => (Rejected (ThrowError "unexpected"), st)
               end)
    (Extended.Chat.handler (fun _ => "")
       {| Extended.Chat.query := "q"; Extended.Chat.project_id := None;
          Extended.Chat.filters := None |}) ()
  = TextContent "No response received".
Proof. reflexivity. Qed.

(** ** Running a handler *)

(** Every handler writes one trace line, awaits one client call and
    returns from its continuation. *)
Lemma run_trace_await {E St A R} (backend : ∀ R, E R → St → settled R * St)
    (label arg : string) (c : E R) (f : settled R → A) (st : St) :
  run backend (ConsoleError label arg (Await c (fun r => Ret (f r)))) st
  = (f (backend R c st).1, (backend R c st).2, [Traced label arg; Called c]).
Proof. simpl. by destruct (backend R c st). Qed.

Lemma result_trace_await {E St A R} (backend : ∀ R, E R → St → settled R * St)
    (label arg : string) (c : E R) (f : settled R → A) (st : St) :
  result_of backend (ConsoleError label arg (Await c (fun r => Ret (f r)))) st
  = f (backend R c st).1.
Proof. unfold result_of. by rewrite run_trace_await. Qed.

Lemma calls_trace_await {E St A R} (backend : ∀ R, E R → St → settled R * St)
    (label arg : string) (c : E R) (f : settled R → A) (st : St) :
  calls_of backend (ConsoleError label arg (Await c (fun r => Ret (f r)))) st
  = [Called c].
Proof. unfold calls_of, log_of. by rewrite run_trace_await. Qed.

(** ** Strings *)

Lemma length_append (s1 s2 : string) :
  String.length (s1 +:+ s2) = (String.length s1 + String.length s2)%nat.
Proof. induction s1 as [|c s1 IH]; simpl; [reflexivity | by rewrite IH]. Qed.

Lemma length_substring (n m : nat) (s : string) :
  (n + m ≤ String.length s)%nat → String.length (String.substring n m s) = m.
Proof.
  revert n m. induction s as [|c s IH]; intros n m Hlen; simpl in Hlen.
  - assert (n = 0%nat ∧ m = 0%nat) as [-> ->] by lia. reflexivity.
  - destruct n as [|n]; simpl.
    + destruct m as [|m]; simpl; [reflexivity|]. rewrite IH; [reflexivity | lia].
    + apply IH. lia.
Qed.


Lemma substring_whole (s : string) :
  String.substring 0 (String.length s) s = s.
Proof. induction s as [|c s IH]; simpl; [reflexivity | by rewrite IH]. Qed.

Lemma substring_split (a b : nat) (s : string) :
  (a + b = String.length s)%nat →
  String.substring 0 a s +:+ String.substring a b s = s.
Proof.
  revert a b. induction s as [|c s IH]; intros a b Hlen; simpl in Hlen.
  - assert (a = 0%nat ∧ b = 0%nat) as [-> ->] by lia. reflexivity.
  - destruct a as [|a]; simpl.
    + simpl in Hlen. subst b. change (String c (String.substring 0 (String.length s) s) = String c s).
      by rewrite substring_whole.
    + change (String c (String.substring 0 a s +:+ String.substring a b s)
              = String c s).
      rewrite IH; [reflexivity | lia].
Qed.


Lemma zeros_S (k : nat) : zeros (S k) = "0" +:+ zeros k.
Proof. destruct k; reflexivity. Qed.

Lemma length_zeros (k : nat) : String.length (zeros k) = k.
Proof.
  induction k as [|k IH]; [reflexivity|].
  by rewrite zeros_S, length_append, IH.
Qed.

(** ** The search formatter, result by result *)

Lemma format_result_number (shortest_decimal : Q → string) (r : SearchResult)
    (idx : nat) (n : number) :
  distance r = VNumber n →
  format_result shortest_decimal r idx
  = Normal (join LF (head_lines r idx ++
      ["   Distance: " +:+ toFixed shortest_decimal 4 n +:+ " (lower is more relevant)"])).
Proof. unfold format_result. by intros ->. Qed.

Lemma format_result_null (shortest_decimal : Q → string) (r : SearchResult) (idx : nat) :
  distance r = VNull →
  format_result shortest_decimal r idx = Normal (join LF (head_lines r idx)).
Proof. unfold format_result. by intros ->. Qed.

Lemma format_result_undefined (shortest_decimal : Q → string) (r : SearchResult)
    (idx : nat) :
  distance r = VUndefined →
  format_result shortest_decimal r idx
  = Abrupt (ThrowError "Cannot read properties of undefined (reading 'toFixed')").
Proof. unfold format_result. by intros ->. Qed.

Lemma format_result_normal_iff (shortest_decimal : Q → string) (r : SearchResult)
    (idx : nat) :
  (∃ block, format_result shortest_decimal r idx = Normal block)
  ↔ number_or_null (distance r).
Proof.
  unfold format_result, number_or_null.
  destruct (distance r) as [| |b|n|s|l|o]; simpl; split;
    try (intros [block [=]]); try (intros [[=]|[n' [=]]]); eauto.
Qed.

Lemma map_results_normal_iff (shortest_decimal : Q → string)
    (results : list SearchResult) (idx : nat) :
  (∃ blocks, map_results shortest_decimal results idx = Normal blocks)
  ↔ Forall (λ r, number_or_null (distance r)) results.
Proof.
  revert idx. induction results as [|r results IH]; intros idx; simpl.
  - split; [constructor | by eexists].
  - rewrite Forall_cons, <- (IH (S idx)), <- (format_result_normal_iff shortest_decimal r idx).
    destruct (format_result shortest_decimal r idx) as [block|e].
    + destruct (map_results shortest_decimal results (S idx)) as [blocks|e'].
      * split; [intros _; split; by eexists | by eexists].
      * split; [intros [? [=]] | intros [_ [? [=]]]].
    + split; [intros [? [=]] | intros [[? [=]] _]].
Qed.

Lemma format_search_normal_iff (shortest_decimal : Q → string)
    (results : list SearchResult) :
  (∃ text, format_search shortest_decimal results = Normal text)
  ↔ Forall (λ r, number_or_null (distance r)) results.
Proof.
  rewrite <- (map_results_normal_iff shortest_decimal results 0).
  unfold format_search. destruct results as [|r results].
  - simpl. split; by eexists.
  - change (0 <? length (r :: results))%nat with true. cbv iota.
    destruct (map_results shortest_decimal (r :: results) 0) as [blocks|e].
    + split; by eexists.
    + split; intros [? [=]].
Qed.

(** ** C1: which optional keys a payload carries *)

(** C1, as stated, fails on the code.  A [project_id] supplied as the
    empty string passes the chat schema and is dropped by the truthiness
    guard of the chat shaper; the same holds for [source] in create-memo;
    and the search payload carries [limit] although the caller omitted it. *)
Lemma C1_supplied_empty_string_is_dropped :
  Minimal.Chat.parse {["query" := VString "q"; "project_id" := VString ""]}
    = Some {| Minimal.Chat.query := "q"; Minimal.Chat.project_id := Some "" |} ∧
  ¬ present_iff_supplied
      (Minimal.Chat.chatParams
         {| Minimal.Chat.query := "q"; Minimal.Chat.project_id := Some "" |})
      "project_id" (Some "") ∧
  ¬ (∀ a : CreateMemo.Args,
       present_iff_supplied (CreateMemo.memoData a) "source" (CreateMemo.source a)) ∧
  ¬ (∀ (raw : gmap string value) (a : Extended.Search.Args),
       Extended.Search.parse raw = Some a →
       is_Some (Extended.Search.searchParams a !! "limit") ↔ is_Some (raw !! "limit")).
Proof.
  split_and!.
  - reflexivity.
  - unfold present_iff_supplied. intros [_ H].
    destruct H as [v Hv]; [by eexists|]. vm_compute in Hv. discriminate Hv.
  - intros H.
    specialize (H {| CreateMemo.title := "t"; CreateMemo.content := "c";
                     CreateMemo.project_id := None; CreateMemo.metadata := None;
                     CreateMemo.reference_id := None; CreateMemo.tags := None;
                     CreateMemo.source := Some "" |}).
    destruct H as [_ H]. destruct H as [v Hv]; [by eexists|].
    vm_compute in Hv. discriminate Hv.
  - intros H.
    specialize (H {["query" := VString "q";
                    "search_method" := VString "chunk_semantic_search"]}
                  {| Extended.Search.query := "q";
                     Extended.Search.search_method := Extended.Search.chunk_semantic_search;
                     Extended.Search.limit := Finite (inject_Z 10);
                     Extended.Search.filters := None |} eq_refl).
    destruct H as [H _]. destruct H as [v Hv]; [by eexists|].
    vm_compute in Hv. discriminate Hv.
Qed.

(** C1, amended.  Every shaper writes the required fields, and the key
    of an optional argument exactly when the guard of its assignment
    passes, with the supplied value itself: a truthiness guard in chat,
    search and create-memo (a supplied string must also be non-empty, a
    supplied array or object always passes), a [!== undefined] guard in
    update-memo.  The search payload always carries [limit], as validation
    left it.  No other key is ever written; with every optional argument
    omitted the payload is exactly the required fields (and [limit] for
    search). *)
Theorem C1_payload_keys_follow_guards :
  (∀ a : Minimal.Chat.Args,
     let p := Minimal.Chat.chatParams a in
     p !! "query" = Some (VString (Minimal.Chat.query a)) ∧
     forwards p "project_id" (Minimal.Chat.project_id a) nonempty ∧
     dom p ⊆ {["query"; "project_id"]}) ∧
  (∀ a : Extended.Chat.Args,
     let p := Extended.Chat.chatParams a in
     p !! "query" = Some (VString (Extended.Chat.query a)) ∧
     forwards p "project_id" (Extended.Chat.project_id a) nonempty ∧
     forwards p "filters" (Extended.Chat.filters a) any ∧
     dom p ⊆ {["query"; "project_id"; "filters"]}) ∧
  (∀ a : Minimal.Search.Args,
     let p := Minimal.Search.searchParams a in
     p !! "query" = Some (VString (Minimal.Search.query a)) ∧
     p !! "search_method" = Some (to_value (Minimal.Search.search_method a)) ∧
     p !! "limit" = Some (VNumber (Minimal.Search.limit a)) ∧
     forwards p "tags" (Minimal.Search.tags a) any ∧
     dom p ⊆ {["query"; "search_method"; "limit"; "tags"]}) ∧
  (∀ a : Extended.Search.Args,
     let p := Extended.Search.searchParams a in
     p !! "query" = Some (VString (Extended.Search.query a)) ∧
     p !! "search_method" = Some (to_value (Extended.Search.search_method a)) ∧
     p !! "limit" = Some (VNumber (Extended.Search.limit a)) ∧
     forwards p "filters" (Extended.Search.filters a) any ∧
     dom p ⊆ {["query"; "search_method"; "limit"; "filters"]}) ∧
  (∀ a : CreateMemo.Args,
     let p := CreateMemo.memoData a in
     p !! "title" = Some (VString (CreateMemo.title a)) ∧
     p !! "content" = Some (VString (CreateMemo.content a)) ∧
     forwards p "project_id" (CreateMemo.project_id a) nonempty ∧
     forwards p "metadata" (CreateMemo.metadata a) any ∧
     forwards p "reference_id" (CreateMemo.reference_id a) nonempty ∧
     forwards p "tags" (CreateMemo.tags a) any ∧
     forwards p "source" (CreateMemo.source a) nonempty ∧
     dom p ⊆ {["title"; "content"; "project_id"; "metadata"; "reference_id";
               "tags"; "source"]}) ∧
  (∀ a : Extended.UpdateMemo.Args,
     let p := Extended.UpdateMemo.updateData a in
     forwards p "title" (Extended.UpdateMemo.title a) any ∧
     forwards p "content" (Extended.UpdateMemo.content a) any ∧
     forwards p "metadata" (Extended.UpdateMemo.metadata a) any ∧
     forwards p "client_reference_id" (Extended.UpdateMemo.client_reference_id a) any ∧
     forwards p "source" (Extended.UpdateMemo.source a) any ∧
     forwards p "expiration_date" (Extended.UpdateMemo.expiration_date a) any ∧
     dom p ⊆ {["title"; "content"; "metadata"; "client_reference_id"; "source";
               "expiration_date"]}) ∧
  (∀ q : string,
     Minimal.Chat.chatParams
       {| Minimal.Chat.query := q; Minimal.Chat.project_id := None |}
     = {["query" := VString q]}) ∧
  (∀ q : string,
     Extended.Chat.chatParams
       {| Extended.Chat.query := q; Extended.Chat.project_id := None;
          Extended.Chat.filters := None |}
     = {["query" := VString q]}) ∧
  (∀ (q : string) (m : Minimal.Search.SearchMethod) (l : number),
     Minimal.Search.searchParams
       {| Minimal.Search.query := q; Minimal.Search.search_method := m;
          Minimal.Search.limit := l; Minimal.Search.tags := None |}
     = <["limit" := VNumber l]>
         (<["search_method" := to_value m]> {["query" := VString q]})) ∧
  (∀ (q : string) (m : Extended.Search.SearchMethod) (l : number),
     Extended.Search.searchParams
       {| Extended.Search.query := q; Extended.Search.search_method := m;
          Extended.Search.limit := l; Extended.Search.filters := None |}
     = <["limit" := VNumber l]>
         (<["search_method" := to_value m]> {["query" := VString q]})) ∧
  (∀ t c : string,
     CreateMemo.memoData
       {| CreateMemo.title := t; CreateMemo.content := c;
          CreateMemo.project_id := None; CreateMemo.metadata := None;
          CreateMemo.reference_id := None; CreateMemo.tags := None;
          CreateMemo.source := None |}
     = <["content" := VString c]> {["title" := VString t]}) ∧
  (∀ (m : string) (i : Extended.IdType),
     Extended.UpdateMemo.updateData
       {| Extended.UpdateMemo.memo_id := m; Extended.UpdateMemo.id_type := i;
          Extended.UpdateMemo.title := None; Extended.UpdateMemo.content := None;
          Extended.UpdateMemo.metadata := None;
          Extended.UpdateMemo.client_reference_id := None;
          Extended.UpdateMemo.source := None;
          Extended.UpdateMemo.expiration_date := None |}
     = ∅).
Proof.
  split_and!; try (intros; reflexivity); intros a;
    unfold Minimal.Chat.chatParams, Extended.Chat.chatParams,
      Minimal.Search.searchParams, Extended.Search.searchParams,
      CreateMemo.memoData, Extended.UpdateMemo.updateData;
    cbv zeta; split_and!;
    first [ lookup_required | forwards_optional | dom_bound ].
Qed.

(** ** C2: the registered tools *)


(** ** C3: an update that provides the title alone *)

(** C3: when [title] is provided and every other optional field of
    skald-update-memo is omitted, the update payload is the single
    binding of [title]; it has no [content], [metadata],
    [client_reference_id], [source] or [expiration_date] key, and it is
    the payload of the one [updateMemo] call the handler issues. *)
Theorem C3_update_with_title_only (shortest_decimal : Q → string)
    (a : Extended.UpdateMemo.Args) (t : string) :
  Extended.UpdateMemo.title a = Some t →
  Extended.UpdateMemo.content a = None →
  Extended.UpdateMemo.metadata a = None →
  Extended.UpdateMemo.client_reference_id a = None →
  Extended.UpdateMemo.source a = None →
  Extended.UpdateMemo.expiration_date a = None →
  Extended.UpdateMemo.updateData a = {["title" := VString t]} ∧
  Extended.UpdateMemo.updateData a !! "title" = Some (VString t) ∧
  Extended.UpdateMemo.updateData a !! "content" = None ∧
  Extended.UpdateMemo.updateData a !! "metadata" = None ∧
  Extended.UpdateMemo.updateData a !! "client_reference_id" = None ∧
  Extended.UpdateMemo.updateData a !! "source" = None ∧
  Extended.UpdateMemo.updateData a !! "expiration_date" = None ∧
  dom (Extended.UpdateMemo.updateData a) = {["title"]} ∧
  ∀ (St : Type) (backend : ∀ R, Extended.Skald R → St → settled R * St) (st : St),
    calls_of backend (Extended.UpdateMemo.handler shortest_decimal a) st
    = [Called (Extended.updateMemo (Extended.UpdateMemo.memo_id a)
                 {["title" := VString t]} (Extended.UpdateMemo.id_type a))].
Proof.
  intros Ht Hc Hm Hr Hs He.
  assert (Extended.UpdateMemo.updateData a = {["title" := VString t]}) as Hp.
  { unfold Extended.UpdateMemo.updateData. by rewrite Ht, Hc, Hm, Hr, Hs, He. }
  split_and!;
    first [ done
          | by rewrite Hp; apply lookup_singleton_eq
          | by rewrite Hp; apply lookup_singleton_ne
          | by rewrite Hp; apply dom_singleton_L
          | idtac ].
  intros St backend st. unfold Extended.UpdateMemo.handler. rewrite Hp.
  apply calls_trace_await.
Qed.

(** A call with [memo_id] and [title] only passes the schema and gives
    such arguments. *)
Lemma C3_update_with_title_only_witness :
  Extended.UpdateMemo.parse
    {["memo_id" := VString "m-1"; "title" := VString "New title"]}
  = Some {| Extended.UpdateMemo.memo_id := "m-1";
            Extended.UpdateMemo.id_type := Extended.memo_uuid;
            Extended.UpdateMemo.title := Some "New title";
            Extended.UpdateMemo.content := None;
            Extended.UpdateMemo.metadata := None;
            Extended.UpdateMemo.client_reference_id := None;
            Extended.UpdateMemo.source := None;
            Extended.UpdateMemo.expiration_date := None |} ∧
  Extended.UpdateMemo.updateData
    {| Extended.UpdateMemo.memo_id := "m-1";
       Extended.UpdateMemo.id_type := Extended.memo_uuid;
       Extended.UpdateMemo.title := Some "New title";
       Extended.UpdateMemo.content := None;
       Extended.UpdateMemo.metadata := None;
       Extended.UpdateMemo.client_reference_id := None;
       Extended.UpdateMemo.source := None;
       Extended.UpdateMemo.expiration_date := None |}
  = {["title" := VString "New title"]}.
Proof.
  split; [reflexivity|].
  apply (C3_update_with_title_only (fun _ => "") _ "New title");
    reflexivity.
Defined.

(** ** C4: validation of the search arguments *)

Lemma z_enum_not_member {A} (members : list (string * A)) (v : value) :
  not_member members v → z_enum members v = None.
Proof.
  intros Hv. destruct v as [| | | |s| |]; try reflexivity.
  specialize (Hv s eq_refl). simpl.
  induction members as [|[s' a] members IH]; [reflexivity|].
  simpl in *. apply not_elem_of_cons in Hv as [Hne Hv].
  destruct (String.eqb_spec s' s) as [->|_]; [done|]. by apply IH.
Qed.

Lemma z_limit_out_of_range (d : value) (q : Q) :
  (q < 1 ∨ 50 < q)%Q →
  z_default (z_optional (z_number_min_max 1 50)) d (VNumber (Finite q)) = None.
Proof.
  intros Hq. unfold z_default, z_optional, z_number_min_max, num_lt. simpl.
  destruct (Qle_bool (inject_Z 1) q) eqn:H1; simpl.
  - destruct (Qle_bool q (inject_Z 50)) eqn:H50; simpl; [|reflexivity].
    apply Qle_bool_iff in H1, H50. destruct Hq as [Hq|Hq].
    + by apply Qlt_not_le in Hq.
    + by apply Qlt_not_le in Hq.
  - reflexivity.
Qed.

Lemma z_limit_default :
  z_default (z_optional (z_number_min_max 1 50)) (VNumber (Finite (inject_Z 10)))
    VUndefined = Some (Finite (inject_Z 10)).
Proof. reflexivity. Qed.

Lemma prop_omitted (raw : gmap string value) (k : string) :
  raw !! k = None → prop raw k = VUndefined.
Proof. unfold prop. by intros ->. Qed.

(** C4: for skald-search in both snapshots, a [search_method] outside
    the declared enumeration, and a [limit] below 1 or above 50 (an
    infinite one included), end the invocation at the schema, before any
    trace line or backend call; when [limit] is omitted, the validated
    arguments carry 10. *)
Theorem C4_search_validation (shortest_decimal : Q → string) :
  (∀ raw : gmap string value,
     not_member Minimal.Search.search_methods (prop raw "search_method") →
     rejects (Minimal.Search.invoke shortest_decimal raw)) ∧
  (∀ (raw : gmap string value) (q : Q),
     prop raw "limit" = VNumber (Finite q) → (q < 1 ∨ 50 < q)%Q →
     rejects (Minimal.Search.invoke shortest_decimal raw)) ∧
  (∀ (raw : gmap string value) (a : Minimal.Search.Args),
     raw !! "limit" = None → Minimal.Search.parse raw = Some a →
     Minimal.Search.limit a = Finite (inject_Z 10)) ∧
  (∀ raw : gmap string value,
     not_member Extended.Search.search_methods (prop raw "search_method") →
     rejects (Extended.Search.invoke shortest_decimal raw)) ∧
  (∀ (raw : gmap string value) (q : Q),
     prop raw "limit" = VNumber (Finite q) → (q < 1 ∨ 50 < q)%Q →
     rejects (Extended.Search.invoke shortest_decimal raw)) ∧
  (∀ (raw : gmap string value) (a : Extended.Search.Args),
     raw !! "limit" = None → Extended.Search.parse raw = Some a →
     Extended.Search.limit a = Finite (inject_Z 10)) ∧
  (∀ (raw : gmap string value) (n : number),
     prop raw "limit" = VNumber n → n = NegInfinity ∨ n = PosInfinity →
     rejects (Minimal.Search.invoke shortest_decimal raw) ∧
     rejects (Extended.Search.invoke shortest_decimal raw)).
Proof.
  split_and!.
  - intros raw Hm St backend st.
    unfold Minimal.Search.invoke, Minimal.Search.parse.
    rewrite (z_enum_not_member _ _ Hm).
    by destruct (z_string (prop raw "query")).
  - intros raw q Hl Hq St backend st.
    unfold Minimal.Search.invoke, Minimal.Search.parse.
    rewrite Hl, (z_limit_out_of_range _ _ Hq).
    destruct (z_string (prop raw "query")); [|done].
    by destruct (z_enum _ (prop raw "search_method")).
  - intros raw a Hl. unfold Minimal.Search.parse.
    rewrite (prop_omitted _ _ Hl), z_limit_default.
    destruct (z_string (prop raw "query")); [|done].
    destruct (z_enum _ (prop raw "search_method")); [|done].
    destruct (z_optional _ (prop raw "tags")); [|done].
    by intros [= <-].
  - intros raw Hm St backend st.
    unfold Extended.Search.invoke, Extended.Search.parse.
    rewrite (z_enum_not_member _ _ Hm).
    by destruct (z_string (prop raw "query")).
  - intros raw q Hl Hq St backend st.
    unfold Extended.Search.invoke, Extended.Search.parse.
    rewrite Hl, (z_limit_out_of_range _ _ Hq).
    destruct (z_string (prop raw "query")); [|done].
    by destruct (z_enum _ (prop raw "search_method")).
  - intros raw a Hl. unfold Extended.Search.parse.
    rewrite (prop_omitted _ _ Hl), z_limit_default.
    destruct (z_string (prop raw "query")); [|done].
    destruct (z_enum _ (prop raw "search_method")); [|done].
    destruct (Extended.filterSchema (prop raw "filters")); [|done].
    by intros [= <-].
  - intros raw n Hl Hn.
    assert (z_default (z_optional (z_number_min_max 1 50))
              (VNumber (Finite (inject_Z 10))) (VNumber n) = None) as Hz
      by (by destruct Hn as [-> | ->]).
    split; intros St backend st.
    + unfold Minimal.Search.invoke, Minimal.Search.parse. rewrite Hl, Hz.
      destruct (z_string (prop raw "query")); [|done].
      by destruct (z_enum _ (prop raw "search_method")).
    + unfold Extended.Search.invoke, Extended.Search.parse. rewrite Hl, Hz.
      destruct (z_string (prop raw "query")); [|done].
      by destruct (z_enum _ (prop raw "search_method")).
Qed.

(** The rejections and the default, at concrete calls of both snapshots:
    an unknown method, limits 0 and 51, an omitted limit. *)
Lemma C4_search_validation_witness :
  rejects (Minimal.Search.invoke (fun _ => "")
             {["query" := VString "q"; "search_method" := VString "fuzzy"]}) ∧
  rejects (Minimal.Search.invoke (fun _ => "")
             {["query" := VString "q"; "search_method" := VString "title_contains";
               "limit" := VNumber (Finite (inject_Z 0))]}) ∧
  (∃ a, Minimal.Search.parse
          {["query" := VString "q"; "search_method" := VString "title_contains"]}
        = Some a ∧ Minimal.Search.limit a = Finite (inject_Z 10)) ∧
  rejects (Extended.Search.invoke (fun _ => "")
             {["query" := VString "q"; "search_method" := VString "title_contains"]}) ∧
  rejects (Extended.Search.invoke (fun _ => "")
             {["query" := VString "q";
               "search_method" := VString "chunk_semantic_search";
               "limit" := VNumber (Finite (inject_Z 51))]}) ∧
  (∃ a, Extended.Search.parse
          {["query" := VString "q";
            "search_method" := VString "chunk_semantic_search"]}
        = Some a ∧ Extended.Search.limit a = Finite (inject_Z 10)).
Proof.
  destruct (C4_search_validation (fun _ => ""))
    as (M1 & M2 & M3 & X1 & X2 & X3 & _).
  split_and!.
  - apply M1. intros s [= <-] Hin. vm_compute in Hin.
    repeat (apply elem_of_cons in Hin as [Hin|Hin]; [discriminate Hin|]).
    by apply elem_of_nil in Hin.
  - apply (M2 _ (inject_Z 0)); [reflexivity|]. left. reflexivity.
  - eexists. split; [reflexivity|].
    apply (M3 {["query" := VString "q"; "search_method" := VString "title_contains"]});
      reflexivity.
  - apply X1. intros s [= <-] Hin. vm_compute in Hin.
    repeat (apply elem_of_cons in Hin as [Hin|Hin]; [discriminate Hin|]).
    by apply elem_of_nil in Hin.
  - apply (X2 _ (inject_Z 51)); [reflexivity|]. right. reflexivity.
  - eexists. split; [reflexivity|].
    apply (X3 {["query" := VString "q";
                "search_method" := VString "chunk_semantic_search"]});
      reflexivity.
Defined.

(** ** C5: a backend failure during skald-chat *)

(** C5: in both snapshots, when the [chat] call rejects, the handler
    throws an [Error] whose message is the fixed prefix followed by the
    message of the failure when it is an [Error], and by its string
    conversion otherwise; a failure with message [network timeout] gives
    exactly [Failed to get response from Skald chat: network timeout].
    Whatever the backend answers, the handler calls [chat] once. *)
Theorem C5_chat_backend_failure (shortest_decimal : Q → string) :
  (∀ (St : Type) (backend : ∀ R, Minimal.Skald R → St → settled R * St) (st : St)
     (a : Minimal.Chat.Args),
     let c := Minimal.chat (Minimal.Chat.chatParams a) in
     calls_of backend (Minimal.Chat.handler shortest_decimal a) st = [Called c] ∧
     (∀ m, (backend _ c st).1 = Rejected (ThrowError m) →
           result_of backend (Minimal.Chat.handler shortest_decimal a) st
           = ErrorThrown ("Failed to get response from Skald chat: " +:+ m)) ∧
     (∀ v, (backend _ c st).1 = Rejected (ThrowValue v) →
           result_of backend (Minimal.Chat.handler shortest_decimal a) st
           = ErrorThrown ("Failed to get response from Skald chat: " +:+
                          ToString shortest_decimal v)) ∧
     ((backend _ c st).1 = Rejected (ThrowError "network timeout") →
      result_of backend (Minimal.Chat.handler shortest_decimal a) st
      = ErrorThrown "Failed to get response from Skald chat: network timeout")) ∧
  (∀ (St : Type) (backend : ∀ R, Extended.Skald R → St → settled R * St) (st : St)
     (a : Extended.Chat.Args),
     let c := Extended.chat (Extended.Chat.chatParams a) in
     calls_of backend (Extended.Chat.handler shortest_decimal a) st = [Called c] ∧
     (∀ m, (backend _ c st).1 = Rejected (ThrowError m) →
           result_of backend (Extended.Chat.handler shortest_decimal a) st
           = ErrorThrown ("Failed to get response from Skald chat: " +:+ m)) ∧
     (∀ v, (backend _ c st).1 = Rejected (ThrowValue v) →
           result_of backend (Extended.Chat.handler shortest_decimal a) st
           = ErrorThrown ("Failed to get response from Skald chat: " +:+
                          ToString shortest_decimal v)) ∧
     ((backend _ c st).1 = Rejected (ThrowError "network timeout") →
      result_of backend (Extended.Chat.handler shortest_decimal a) st
      = ErrorThrown "Failed to get response from Skald chat: network timeout")) ∧
  ToString shortest_decimal (VString "quota exceeded") = "quota exceeded" ∧
  ToString shortest_decimal VUndefined = "undefined".
Proof.
  split_and!; try reflexivity.
  - intros St backend st a c. subst c.
    unfold Minimal.Chat.handler. rewrite calls_trace_await.
    split_and!; [done|..]; intros; rewrite result_trace_await;
      match goal with H : _ = Rejected _ |- _ => by rewrite H end.
  - intros St backend st a c. subst c.
    unfold Extended.Chat.handler. rewrite calls_trace_await.
    split_and!; [done|..]; intros; rewrite result_trace_await;
      match goal with H : _ = Rejected _ |- _ => by rewrite H end.
Qed.

(** A backend that rejects with [network timeout], in both snapshots. *)
Lemma C5_chat_backend_failure_witness :
  result_of (failing (ThrowError "network timeout"))
    (Minimal.Chat.handler (fun _ => "")
       {| Minimal.Chat.query := "q"; Minimal.Chat.project_id := None |}) ()
  = ErrorThrown "Failed to get response from Skald chat: network timeout" ∧
  result_of (failing (ThrowValue (VString "quota exceeded")))
    (Extended.Chat.handler (fun _ => "")
       {| Extended.Chat.query := "q"; Extended.Chat.project_id := None;
          Extended.Chat.filters := None |}) ()
  = ErrorThrown "Failed to get response from Skald chat: quota exceeded".
Proof.
  destruct (C5_chat_backend_failure (fun _ => "")) as (M & X & _).
  split.
  - pose proof (M unit (failing (ThrowError "network timeout")) ()
                  {| Minimal.Chat.query := "q"; Minimal.Chat.project_id := None |})
      as H.
    cbv zeta in H. destruct H as (_ & _ & _ & H). apply H. reflexivity.
  - pose proof (X unit (failing (ThrowValue (VString "quota exceeded"))) ()
                  {| Extended.Chat.query := "q"; Extended.Chat.project_id := None;
                     Extended.Chat.filters := None |})
      as H.
    cbv zeta in H. destruct H as (_ & _ & H & _).
    apply (H (VString "quota exceeded")). reflexivity.
Defined.

(** ** C6: the distance line *)

(** [toFixed] rounds to the nearest multiple of [10^-f], upwards on a tie. *)
Lemma nearest_scaled_bounds (f : nat) (x : Q) :
  (x * inject_Z (10 ^ Z.of_nat f) - (1 # 2) < inject_Z (nearest_scaled f x))%Q ∧
  (inject_Z (nearest_scaled f x) <= x * inject_Z (10 ^ Z.of_nat f) + (1 # 2))%Q.
Proof.
  destruct x as [a b]. unfold nearest_scaled. simpl Qnum. simpl Qden.
  set (T := 10 ^ Z.of_nat f).
  set (n := (2 * a * T + Z.pos b) / (2 * Z.pos b)).
  assert (2 * Z.pos b * n ≤ 2 * a * T + Z.pos b) as Hlo
    by (apply Z.mul_div_le; lia).
  assert (2 * a * T + Z.pos b < 2 * Z.pos b * Z.succ n) as Hhi
    by (apply Z.mul_succ_div_gt; lia).
  unfold Qlt, Qle, Qminus, Qplus, Qopp, Qmult, inject_Z. simpl.
  rewrite ?Pos2Z.inj_mul. split; nia.
Qed.

(** Below 10^21 the text of [toFixed(4)] is a sign, the integer digits,
    a point and exactly four fraction digits; the digits are those of the
    rounded, scaled magnitude, padded to five with zeros. *)
Lemma toFixed_four_decimals (shortest_decimal : Q → string) (q : Q) :
  (Qabs q < ten21)%Q →
  ∃ int frac : string,
    toFixed shortest_decimal 4 (Finite q)
      = (if Qle_bool 0 q then "" else "-") +:+ int +:+ "." +:+ frac ∧
    String.length frac = 4%nat ∧
    int +:+ frac
      = zeros (5 - String.length (decimal (nearest_scaled 4 (Qabs q)))) +:+
        decimal (nearest_scaled 4 (Qabs q)).
Proof.
  intros Hq. unfold toFixed.
  destruct (Qle_bool ten21 (Qabs q)) eqn:Hbig.
  { apply Qle_bool_iff in Hbig. by apply Qle_not_lt in Hbig. }
  set (m := zeros (5 - String.length (decimal (nearest_scaled 4 (Qabs q)))) +:+
            decimal (nearest_scaled 4 (Qabs q))).
  assert (5 ≤ String.length m)%nat as Hm.
  { unfold m. rewrite length_append, length_zeros. lia. }
  exists (String.substring 0 (String.length m - 4) m),
         (String.substring (String.length m - 4) 4 m).
  split_and!.
  - reflexivity.
  - apply length_substring. lia.
  - apply substring_split. lia.
Qed.

(** C6: a result whose distance is a number gets, after its four
    lines, the line of the distance rendered by [toFixed(4)] and followed
    by [ (lower is more relevant)]; a result whose distance is [null] has
    its four lines only.  [toFixed(4)] writes exactly four fraction digits
    of the magnitude rounded to the nearest 0.0001; for the double nearest
    to 0.12345 the line reads [   Distance: 0.1235 (lower is more relevant)]. *)
Theorem C6_distance_line (shortest_decimal : Q → string) :
  (∀ (r : SearchResult) (idx : nat) (n : number),
     distance r = VNumber n →
     format_result shortest_decimal r idx
     = Normal (join LF (head_lines r idx ++
         ["   Distance: " +:+ toFixed shortest_decimal 4 n +:+
          " (lower is more relevant)"]))) ∧
  (∀ (r : SearchResult) (idx : nat),
     distance r = VNull →
     format_result shortest_decimal r idx = Normal (join LF (head_lines r idx))) ∧
  (∀ q : Q,
     (Qabs q < ten21)%Q →
     let n := nearest_scaled 4 (Qabs q) in
     (Qabs q * inject_Z (10 ^ 4) - (1 # 2) < inject_Z n)%Q ∧
     (inject_Z n <= Qabs q * inject_Z (10 ^ 4) + (1 # 2))%Q ∧
     ∃ int frac : string,
       toFixed shortest_decimal 4 (Finite q)
         = (if Qle_bool 0 q then "" else "-") +:+ int +:+ "." +:+ frac ∧
       String.length frac = 4%nat ∧
       int +:+ frac = zeros (5 - String.length (decimal n)) +:+ decimal n) ∧
  binary64_nearest 8895509983982204 (-56) (12345 # 100000) ∧
  toFixed shortest_decimal 4 (Finite double_0_12345) = "0.1235" ∧
  (∀ (r : SearchResult) (idx : nat),
     distance r = VNumber (Finite double_0_12345) →
     format_result shortest_decimal r idx
     = Normal (join LF (head_lines r idx ++
         ["   Distance: 0.1235 (lower is more relevant)"]))).
Proof.
  assert (toFixed shortest_decimal 4 (Finite double_0_12345) = "0.1235") as Hd
    by (vm_compute; reflexivity).
  split_and!.
  - apply format_result_number.
  - apply format_result_null.
  - intros q Hq n. subst n.
    destruct (nearest_scaled_bounds 4 (Qabs q)) as [Hlo Hhi].
    split_and!; [exact Hlo | exact Hhi |].
    by apply toFixed_four_decimals.
  - split; [lia|]. apply Qle_bool_iff. vm_compute. reflexivity.
  - exact Hd.
  - intros r idx Hr.
    rewrite (format_result_number shortest_decimal r idx _ Hr). by rewrite Hd.
Qed.

(** The second result of a response, at distance 0.12345, and a first
    result whose distance is [null]. *)
Lemma C6_distance_line_witness :
  format_result (fun _ => "")
    {| title := "Roadmap"; uuid := "u-2"; summary := "Plans";
       content_snippet := "Q3 goals"; distance := VNumber (Finite double_0_12345) |} 1
  = Normal (join LF [ "2. Roadmap"; "   UUID: u-2"; "   Summary: Plans";
                      "   Snippet: Q3 goals";
                      "   Distance: 0.1235 (lower is more relevant)" ]) ∧
  format_result (fun _ => "")
    {| title := "Notes"; uuid := "u-1"; summary := "Misc";
       content_snippet := "todo"; distance := VNull |} 0
  = Normal (join LF [ "1. Notes"; "   UUID: u-1"; "   Summary: Misc";
                      "   Snippet: todo" ]).
Proof.
  destruct (C6_distance_line (fun _ => "")) as (_ & Hnull & _ & _ & _ & Hd).
  split.
  - apply (Hd {| title := "Roadmap"; uuid := "u-2"; summary := "Plans";
                 content_snippet := "Q3 goals";
                 distance := VNumber (Finite double_0_12345) |} 1%nat).
    reflexivity.
  - apply (Hnull {| title := "Notes"; uuid := "u-1"; summary := "Misc";
                    content_snippet := "todo"; distance := VNull |} 0%nat).
    reflexivity.
Defined.

(** ** C7: the answer of skald-create-memo *)

(** C7: with the client method of either snapshot, when [createMemo]
    resolves with [ok] set the handler returns the confirmation naming
    the title, which for the title [API Reference] is
    [✓ Memo "API Reference" created successfully!]; when it resolves
    with [ok] unset the handler returns the text [Failed to create memo]
    as content and throws nothing. *)
Theorem C7_create_memo_answer (shortest_decimal : Q → string)
    (E : Type → Type) (createMemo : gmap string value → E CreateMemo.Response)
    (St : Type) (backend : ∀ R, E R → St → settled R * St) (st : St)
    (a : CreateMemo.Args) :
  let c := createMemo (CreateMemo.memoData a) in
  let answer := result_of backend (CreateMemo.handler shortest_decimal createMemo a) st in
  ((backend _ c st).1 = Fulfilled {| CreateMemo.ok := true |} →
   answer = TextContent ("✓ Memo " +:+ DQUOTE +:+ CreateMemo.title a +:+ DQUOTE +:+
                         " created successfully!") ∧
   (CreateMemo.title a = "API Reference" →
    answer = TextContent ("✓ Memo " +:+ DQUOTE +:+ "API Reference" +:+ DQUOTE +:+
                          " created successfully!"))) ∧
  ((backend _ c st).1 = Fulfilled {| CreateMemo.ok := false |} →
   answer = TextContent "Failed to create memo" ∧
   ∀ m, answer ≠ ErrorThrown m).
Proof.
  intros c answer. subst c answer. unfold CreateMemo.handler.
  rewrite result_trace_await. split; intros ->; split.
  - reflexivity.
  - by intros ->.
  - reflexivity.
  - discriminate.
Qed.

(** A successful creation titled [API Reference] in the three-tool
    snapshot, and a refused one in the six-tool snapshot. *)
Lemma C7_create_memo_answer_witness :
  result_of
    (λ R (c : Minimal.Skald R) (st : unit),
       match c in Minimal.Skald R return settled R * unit with
       | Minimal.createMemo _ => (Fulfilled {| CreateMemo.ok := true |}, st)
       | _ => (Rejected (ThrowError "unexpected"), st)
       end)
    (CreateMemo.handler (fun _ => "") Minimal.createMemo
       {| CreateMemo.title := "API Reference"; CreateMemo.content := "GET /memos";
          CreateMemo.project_id := None; CreateMemo.metadata := None;
          CreateMemo.reference_id := None; CreateMemo.tags := None;
          CreateMemo.source := None |}) ()
  = TextContent ("✓ Memo " +:+ DQUOTE +:+ "API Reference" +:+ DQUOTE +:+
                 " created successfully!") ∧
  result_of refusing
    (CreateMemo.handler (fun _ => "") Extended.createMemo
       {| CreateMemo.title := "API Reference"; CreateMemo.content := "GET /memos";
          CreateMemo.project_id := None; CreateMemo.metadata := None;
          CreateMemo.reference_id := None; CreateMemo.tags := None;
          CreateMemo.source := None |}) ()
  = TextContent "Failed to create memo".
Proof.
  split.
  - eapply (C7_create_memo_answer (fun _ => "") Minimal.Skald Minimal.createMemo);
      reflexivity.
  - eapply (C7_create_memo_answer (fun _ => "") Extended.Skald Extended.createMemo
              unit refusing); reflexivity.
Defined.

(** ** C8: the rendering of a memo *)





(** ** C9: where the search formatter is defined *)

(** C9: the search formatter produces a text exactly when the distance
    of every result is a number or [null].  A result whose distance is
    [undefined] passes the [!== null] guard and makes the callback throw
    a [TypeError], so a result list holding one has no rendering: the
    handler of either snapshot then throws behind its prefix instead of
    returning a text without the line. *)
Theorem C9_search_formatter_needs_number_or_null (shortest_decimal : Q → string) :
  (∀ results : list SearchResult,
     (∃ text, format_search shortest_decimal results = Normal text)
     ↔ Forall (λ r, number_or_null (distance r)) results) ∧
  (∀ (r : SearchResult) (idx : nat),
     distance r = VUndefined →
     format_result shortest_decimal r idx
     = Abrupt (ThrowError "Cannot read properties of undefined (reading 'toFixed')")) ∧
  (∀ results : list SearchResult,
     Exists (λ r, distance r = VUndefined) results →
     ∃ e, format_search shortest_decimal results = Abrupt e) ∧
  (∀ (St : Type) (backend : ∀ R, Minimal.Skald R → St → settled R * St) (st : St)
     (a : Minimal.Search.Args) (results : list SearchResult),
     (backend _ (Minimal.search (Minimal.Search.searchParams a)) st).1
       = Fulfilled {| Minimal.results := results |} →
     Exists (λ r, distance r = VUndefined) results →
     ∃ e, result_of backend (Minimal.Search.handler shortest_decimal a) st
          = ErrorThrown ("Failed to search Skald memos: " +:+
                         errorMessage shortest_decimal e)) ∧
  (∀ (St : Type) (backend : ∀ R, Extended.Skald R → St → settled R * St) (st : St)
     (a : Extended.Search.Args) (results : list SearchResult),
     (backend _ (Extended.search (Extended.Search.searchParams a)) st).1
       = Fulfilled {| Extended.results := results |} →
     Exists (λ r, distance r = VUndefined) results →
     ∃ e, result_of backend (Extended.Search.handler shortest_decimal a) st
          = ErrorThrown ("Failed to search Skald memos: " +:+
                         errorMessage shortest_decimal e)).
Proof.
  assert (∀ results : list SearchResult,
            Exists (λ r, distance r = VUndefined) results →
            ∃ e, format_search shortest_decimal results = Abrupt e) as Hundef.
  { intros results Hex.
    destruct (format_search shortest_decimal results) as [text|e] eqn:Hf; [|by eexists].
    assert (Forall (λ r, number_or_null (distance r)) results) as Hall.
    { apply (format_search_normal_iff shortest_decimal). by eexists. }
    apply Exists_exists in Hex as (r & Hin & Hr).
    rewrite Forall_forall in Hall. specialize (Hall r Hin).
    rewrite Hr in Hall. by destruct Hall as [[=]|[n [=]]]. }
  split_and!.
  - apply format_search_normal_iff.
  - apply format_result_undefined.
  - exact Hundef.
  - intros St backend st a results Hb Hex.
    destruct (Hundef results Hex) as [e He]. exists e.
    unfold Minimal.Search.handler. rewrite result_trace_await, Hb. simpl.
    by rewrite He.
  - intros St backend st a results Hb Hex.
    destruct (Hundef results Hex) as [e He]. exists e.
    unfold Extended.Search.handler. rewrite result_trace_await, Hb. simpl.
    by rewrite He.
Qed.

(** A result list whose only result has no distance at all. *)
Lemma C9_search_formatter_needs_number_or_null_witness :
  ∃ e, format_search (fun _ => "")
         [ {| title := "Notes"; uuid := "u-1"; summary := "s";
              content_snippet := "c"; distance := VUndefined |} ]
       = Abrupt e.
Proof.
  destruct (C9_search_formatter_needs_number_or_null (fun _ => ""))
    as (_ & _ & H & _).
  apply H. apply Exists_cons_hd. reflexivity.
Defined.

(** ** C10: the answer of skald-delete-memo *)

(** C10: whenever [deleteMemo] resolves, with whatever value, the
    handler returns [✓ Memo "<memo_id>" deleted successfully!]; for every
    backend the answer is either that text or an [Error] behind the
    prefix [Failed to delete Skald memo: ], never a failure text returned
    as content. *)
Theorem C10_delete_memo_answer (shortest_decimal : Q → string)
    (St : Type) (backend : ∀ R, Extended.Skald R → St → settled R * St) (st : St)
    (a : Extended.DeleteMemo.Args) :
  let c := Extended.deleteMemo (Extended.DeleteMemo.memo_id a)
             (Extended.DeleteMemo.id_type a) in
  let answer := result_of backend (Extended.DeleteMemo.handler shortest_decimal a) st in
  let success := "✓ Memo " +:+ DQUOTE +:+ Extended.DeleteMemo.memo_id a +:+ DQUOTE +:+
                 " deleted successfully!" in
  (∀ v, (backend _ c st).1 = Fulfilled v → answer = TextContent success) ∧
  (answer = TextContent success ∨
   ∃ e, (backend _ c st).1 = Rejected e ∧
        answer = ErrorThrown ("Failed to delete Skald memo: " +:+
                              errorMessage shortest_decimal e)) ∧
  calls_of backend (Extended.DeleteMemo.handler shortest_decimal a) st = [Called c].
Proof.
  intros c answer success. subst c answer success.
  unfold Extended.DeleteMemo.handler.
  rewrite result_trace_await, calls_trace_await. split_and!.
  - by intros v ->.
  - destruct (backend _ _ st).1 as [v|e]; [by left|right]. by exists e.
  - reflexivity.
Qed.

(** A backend whose [deleteMemo] resolves with an object flagged not-ok:
    the answer is the success text all the same. *)
Lemma C10_delete_memo_answer_witness :
  result_of refusing
    (Extended.DeleteMemo.handler (fun _ => "")
       {| Extended.DeleteMemo.memo_id := "m-1";
          Extended.DeleteMemo.id_type := Extended.memo_uuid |}) ()
  = TextContent ("✓ Memo " +:+ DQUOTE +:+ "m-1" +:+ DQUOTE +:+ " deleted successfully!").
Proof.
  pose proof (C10_delete_memo_answer (fun _ => "") unit refusing ()
                {| Extended.DeleteMemo.memo_id := "m-1";
                   Extended.DeleteMemo.id_type := Extended.memo_uuid |}) as H.
  cbv zeta in H. destruct H as (H & _).
  apply (H (VObject [("ok", VBoolean false)])). reflexivity.
Defined.

(** * Further properties *)

Import Contract.

(** ** Arguments the schemas turn away *)

Create HintDb registrations.
#[local] Hint Unfold
  Minimal.Chat.invoke Minimal.Chat.parse Minimal.Search.invoke Minimal.Search.parse
  CreateMemo.invoke CreateMemo.parse
  Extended.Chat.invoke Extended.Chat.parse Extended.Search.invoke Extended.Search.parse
  Extended.GetMemo.invoke Extended.GetMemo.parse
  Extended.UpdateMemo.invoke Extended.UpdateMemo.parse
  Extended.DeleteMemo.invoke Extended.DeleteMemo.parse
  Extended.z_id_type Extended.filterSchema : registrations.

(** Case analysis on every schema applied to a raw argument. *)
Ltac each_schema raw :=
  repeat match goal with
         | |- context [?f (prop raw ?k)] => destruct (f (prop raw k)); simpl
         end.

(** The registered tools, one by one, from a successful lookup. *)
Ltac each_tool H :=
  unfold find_tool, Minimal.tools, Extended.tools in H;
  cbn [List.find name] in H;
  repeat match type of H with
         | context [String.eqb ?a ?n] =>
             destruct (String.eqb_spec a n) as [<- | ?]
         end;
  first [ discriminate H | injection H as <- ].

Ltac each_key H :=
  unfold required_of, optional_of, extended_parameters, minimal_parameters in H;
  simpl in H; rewrite ?elem_of_cons, elem_of_nil in H;
  repeat (destruct H as [-> | H]); [..| destruct H].

(** X1: in both snapshots, a call of any registered tool in which a
    required parameter is missing, [null] or anything but a string ends
    at the schema: nothing is traced and no client method is called. *)
Theorem X1_required_argument_must_be_a_string (shortest_decimal : Q → string)
    (n k : string) (raw : gmap string value) :
  (∀ s, prop raw k ≠ VString s) →
  (∀ t : tool Minimal.Skald,
     find_tool (Minimal.tools shortest_decimal) n = Some t →
     k ∈ required_of minimal_parameters n →
     rejects (invoke t raw)) ∧
  (∀ t : tool Extended.Skald,
     find_tool (Extended.tools shortest_decimal) n = Some t →
     k ∈ required_of extended_parameters n →
     rejects (invoke t raw)).
Proof.
  intros Hv. split; intros t Ht Hk St backend st.
  - each_tool Ht; each_key Hk; simpl; autounfold with registrations;
      match goal with
      | Hv : ∀ s, prop raw ?k ≠ VString s |- _ => destruct (prop raw k) eqn:E
      end; try (exfalso; exact (Hv _ eq_refl)); simpl; each_schema raw; done.
  - each_tool Ht; each_key Hk; simpl; autounfold with registrations;
      match goal with
      | Hv : ∀ s, prop raw ?k ≠ VString s |- _ => destruct (prop raw k) eqn:E
      end; try (exfalso; exact (Hv _ eq_refl)); simpl; each_schema raw; done.
Qed.

(** A create-memo call without [content], and a delete call whose
    [memo_id] is a number. *)
Lemma X1_required_argument_must_be_a_string_witness :
  rejects (CreateMemo.invoke (fun _ => "") Minimal.createMemo
             {["title" := VString "t"]}) ∧
  rejects (Extended.DeleteMemo.invoke (fun _ => "")
             {["memo_id" := VNumber (Finite (inject_Z 7))]}).
Proof.
  split.
  - assert (∀ s, prop {["title" := VString "t"]} "content" ≠ VString s) as Hv
      by (intros s; discriminate).
    destruct (X1_required_argument_must_be_a_string (fun _ => "")
                "skald-create-memo" _ _ Hv) as [H _].
    refine (H _ eq_refl _).
    unfold required_of, minimal_parameters. simpl. rewrite !elem_of_cons. auto.
  - assert (∀ s, prop {["memo_id" := VNumber (Finite (inject_Z 7))]} "memo_id"
                 ≠ VString s) as Hv
      by (intros s; discriminate).
    destruct (X1_required_argument_must_be_a_string (fun _ => "")
                "skald-delete-memo" _ _ Hv) as [_ H].
    refine (H _ eq_refl _).
    unfold required_of, extended_parameters. simpl. rewrite !elem_of_cons. auto.
Defined.

(** X2: in both snapshots, [null] for any optional parameter of any
    registered tool ends the call at the schema; [.optional()] admits
    [undefined] only. *)
Theorem X2_null_is_not_omitted (shortest_decimal : Q → string)
    (n k : string) (raw : gmap string value) :
  prop raw k = VNull →
  (∀ t : tool Minimal.Skald,
     find_tool (Minimal.tools shortest_decimal) n = Some t →
     k ∈ optional_of minimal_parameters n →
     rejects (invoke t raw)) ∧
  (∀ t : tool Extended.Skald,
     find_tool (Extended.tools shortest_decimal) n = Some t →
     k ∈ optional_of extended_parameters n →
     rejects (invoke t raw)).
Proof.
  intros Hv. split; intros t Ht Hk St backend st.
  - each_tool Ht; each_key Hk; simpl; autounfold with registrations;
      rewrite Hv; simpl; each_schema raw; done.
  - each_tool Ht; each_key Hk; simpl; autounfold with registrations;
      rewrite Hv; simpl; each_schema raw; done.
Qed.

(** A chat call whose [project_id] is [null], a search call whose
    [tags] are. *)
Lemma X2_null_is_not_omitted_witness :
  rejects (Extended.Chat.invoke (fun _ => "")
             {["query" := VString "q"; "project_id" := VNull]}) ∧
  rejects (Minimal.Search.invoke (fun _ => "")
             {["query" := VString "q"; "search_method" := VString "title_contains";
               "tags" := VNull]}).
Proof.
  split.
  - assert (prop {["query" := VString "q"; "project_id" := VNull]} "project_id"
            = VNull) as Hv by reflexivity.
    destruct (X2_null_is_not_omitted (fun _ => "") "skald-chat" _ _ Hv) as [_ H].
    refine (H _ eq_refl _).
    unfold optional_of, extended_parameters. simpl. rewrite !elem_of_cons. auto.
  - assert (prop {["query" := VString "q";
                   "search_method" := VString "title_contains";
                   "tags" := VNull]} "tags" = VNull) as Hv by reflexivity.
    destruct (X2_null_is_not_omitted (fun _ => "") "skald-search" _ _ Hv) as [H _].
    refine (H _ eq_refl _).
    unfold optional_of, minimal_parameters. simpl. rewrite !elem_of_cons. auto.
Defined.

(** ** Bounds the schemas enforce *)

Lemma prop_lookup (raw : gmap string value) (k : string) (v : value) :
  raw !! k = Some v → prop raw k = v.
Proof. unfold prop. by intros ->. Qed.









(** ** What validation hands over is what the caller sent *)

Lemma z_string_inv (v : value) (s : string) : z_string v = Some s → v = VString s.
Proof. destruct v; simpl; try discriminate. by intros [= ->]. Qed.



Lemma mapM_z_string_inv (elems : list value) (l : list string) :
  mapM z_string elems = Some l → elems = VString <$> l.
Proof.
  revert l. induction elems as [|e elems IH]; intros l; simpl.
  - by intros [= <-].
  - destruct (z_string e) as [s|] eqn:He; simpl; [|discriminate].
    destruct (mapM z_string elems) as [l'|]; simpl; [|discriminate].
    intros [= <-]. simpl. f_equal; [by apply z_string_inv | by apply IH].
Qed.

Lemma z_array_string_inv (v : value) (l : list string) :
  z_array z_string v = Some l → v = to_value l.
Proof.
  destruct v as [| | | | |elems|]; simpl; try discriminate.
  intros H. apply mapM_z_string_inv in H. by rewrite H.
Qed.



Lemma minimal_search_method_inv (v : value) (m : Minimal.Search.SearchMethod) :
  z_enum Minimal.Search.search_methods v = Some m → v = to_value m.
Proof.
  unfold z_enum, Minimal.Search.search_methods.
  destruct v as [| | | |s| |]; try discriminate.
  cbn [List.find fst].
  repeat match goal with
         | |- context [String.eqb ?a s] =>
             destruct (String.eqb_spec a s) as [<- | _]; [by intros [= <-]|]
         end.
  intros H. discriminate H.
Qed.

Lemma extended_search_method_inv (v : value) (m : Extended.Search.SearchMethod) :
  z_enum Extended.Search.search_methods v = Some m → v = to_value m.
Proof.
  unfold z_enum, Extended.Search.search_methods.
  destruct v as [| | | |s| |]; try discriminate.
  cbn [List.find fst].
  repeat match goal with
         | |- context [String.eqb ?a s] =>
             destruct (String.eqb_spec a s) as [<- | _]; [by intros [= <-]|]
         end.
  intros H. discriminate H.
Qed.


(** One bind of a parse that succeeded. *)
Tactic Notation "parsed_field" hyp(H) ident(name) :=
  match type of H with
  | context [?f (prop ?raw ?k)] =>
      let E := fresh "E" name in
      destruct (f (prop raw k)) as [name|] eqn:E; [|done]; simpl in H
  end.










(** ** Filters *)

Lemma mapM_z_string_values (l : list string) :
  mapM z_string (VString <$> l) = Some l.
Proof.
  apply mapM_Some. induction l as [|s l IH]; csimpl; constructor; [reflexivity | exact IH].
Qed.

Lemma z_union_to_value (x : string + list string) :
  z_union z_string (z_array z_string)
    (match x with inl s => to_value s | inr l => to_value l end) = Some x.
Proof.
  destruct x as [s|l]; [reflexivity|]. unfold z_union.
  replace (z_string (to_value l)) with (@None string) by reflexivity.
  replace (z_array z_string (to_value l)) with (Some l)
    by (symmetry; apply mapM_z_string_values).
  reflexivity.
Qed.

Lemma z_filter_to_value (f : Extended.Filter) :
  Extended.z_filter (to_value f) = Some f.
Proof.
  destruct f as [field operator x kind].
  unfold Extended.z_filter, to_value at 1, Extended.to_value_filter.
  cbn [Extended.field Extended.operator Extended.filter_value Extended.filter_type].
  rewrite (prop_lookup _ "field" (to_value field)) by reflexivity.
  rewrite (prop_lookup _ "operator" (to_value operator)) by reflexivity.
  rewrite (prop_lookup _ "value"
             (match x with inl s => to_value s | inr l => to_value l end))
    by reflexivity.
  rewrite (prop_lookup _ "filter_type" (to_value kind)) by reflexivity.
  rewrite z_union_to_value.
  by destruct operator, kind.
Qed.

Lemma mapM_z_filter_values (l : list Extended.Filter) :
  mapM Extended.z_filter (to_value <$> l) = Some l.
Proof.
  apply mapM_Some. induction l as [|f l IH]; csimpl; constructor;
    [apply z_filter_to_value | exact IH].
Qed.

Lemma operator_inv (v : value) (o : Extended.Operator) :
  z_enum Extended.operators v = Some o → v = to_value o.
Proof.
  unfold z_enum, Extended.operators.
  destruct v as [| | | |s| |]; try discriminate.
  cbn [List.find fst].
  repeat match goal with
         | |- context [String.eqb ?a s] =>
             destruct (String.eqb_spec a s) as [<- | _]; [by intros [= <-]|]
         end.
  intros H. discriminate H.
Qed.

Lemma filter_type_inv (v : value) (k : Extended.FilterKind) :
  z_enum Extended.filter_types v = Some k → v = to_value k.
Proof.
  unfold z_enum, Extended.filter_types.
  destruct v as [| | | |s| |]; try discriminate.
  cbn [List.find fst].
  repeat match goal with
         | |- context [String.eqb ?a s] =>
             destruct (String.eqb_spec a s) as [<- | _]; [by intros [= <-]|]
         end.
  intros H. discriminate H.
Qed.

Lemma filter_value_inv (v : value) (x : string + list string) :
  z_union z_string (z_array z_string) v = Some x →
  v = match x with inl s => to_value s | inr l => to_value l end.
Proof.
  unfold z_union. destruct (z_string v) as [s|] eqn:Hs.
  - intros [= <-]. by apply z_string_inv.
  - destruct (z_array z_string v) as [l|] eqn:Hl; simpl; [|discriminate].
    intros [= <-]. by apply z_array_string_inv.
Qed.

(** X6: filters pass validation unchanged and are forwarded.  Every
    filter, whatever its operator and whether its value is a string or a
    list of strings, is accepted again by the schema as itself, and a chat
    call carrying a list of filters, the empty list included, hands that
    list to [skald.chat].  A raw filter object that validates is forwarded
    with its four declared keys only, each with the raw value: any other
    key it had is dropped. *)
Theorem X6_filters_are_forwarded_field_by_field :
  (∀ f : Extended.Filter, Extended.z_filter (to_value f) = Some f) ∧
  (∀ (q : string) (l : list Extended.Filter),
     ∃ a, Extended.Chat.parse {["query" := VString q; "filters" := to_value l]}
          = Some a ∧
          Extended.Chat.chatParams a
          = {["query" := VString q; "filters" := to_value l]}) ∧
  (∀ (v : value) (f : Extended.Filter),
     Extended.z_filter v = Some f →
     ∃ props, v = VObject props ∧
       to_value f
       = VObject [ ("field", prop (list_to_map props) "field");
                   ("operator", prop (list_to_map props) "operator");
                   ("value", prop (list_to_map props) "value");
                   ("filter_type", prop (list_to_map props) "filter_type") ]).
Proof.
  split_and!.
  - apply z_filter_to_value.
  - intros q l.
    exists {| Extended.Chat.query := q; Extended.Chat.project_id := None;
              Extended.Chat.filters := Some l |}.
    split; [|reflexivity].
    unfold Extended.Chat.parse, Extended.filterSchema.
    rewrite (prop_lookup _ "query" (VString q)) by reflexivity.
    rewrite (prop_lookup _ "filters" (to_value l)) by reflexivity.
    change (to_value l) with (VArray (to_value <$> l)).
    unfold z_optional, z_array. rewrite mapM_z_filter_values. reflexivity.
  - intros v f. unfold Extended.z_filter.
    destruct v as [| | | | | |props]; try discriminate.
    intros Hf. exists props. split; [reflexivity|].
    destruct (z_string (prop (list_to_map props) "field")) as [fld|] eqn:E1;
      [|discriminate]. simpl in Hf.
    destruct (z_enum Extended.operators (prop (list_to_map props) "operator"))
      as [op|] eqn:E2; [|discriminate]. simpl in Hf.
    destruct (z_union z_string (z_array z_string) (prop (list_to_map props) "value"))
      as [val|] eqn:E3; [|discriminate]. simpl in Hf.
    destruct (z_enum Extended.filter_types (prop (list_to_map props) "filter_type"))
      as [kind|] eqn:E4; [|discriminate]. simpl in Hf.
    injection Hf as <-.
    apply z_string_inv in E1. apply operator_inv in E2.
    apply filter_value_inv in E3. apply filter_type_inv in E4.
    unfold to_value at 1, Extended.to_value_filter. simpl.
    by rewrite E1, E2, E3, E4.
Qed.

(** A filter with operator [in], a scalar value and a key the schema
    does not declare: it validates, and is forwarded without that key. *)
Lemma X6_filters_are_forwarded_field_by_field_witness :
  ∃ f, Extended.z_filter
         (VObject [ ("note", VString "mine"); ("field", VString "source");
                    ("operator", VString "in"); ("value", VString "notion");
                    ("filter_type", VString "native_field") ]) = Some f ∧
       to_value f
       = VObject [ ("field", VString "source"); ("operator", VString "in");
                   ("value", VString "notion");
                   ("filter_type", VString "native_field") ].
Proof.
  eexists. split; [reflexivity|].
  destruct X6_filters_are_forwarded_field_by_field as (_ & _ & H).
  destruct (H (VObject [ ("note", VString "mine"); ("field", VString "source");
                         ("operator", VString "in"); ("value", VString "notion");
                         ("filter_type", VString "native_field") ])
              _ eq_refl) as (props & Hv & Hf).
  injection Hv as <-. exact Hf.
Defined.

(** ** The search text, block by block *)

Lemma append_assoc (a b c : string) : (a +:+ b) +:+ c = a +:+ b +:+ c.
Proof.
  induction a as [|x a IH]; [reflexivity|].
  change (String x ((a +:+ b) +:+ c) = String x (a +:+ b +:+ c)). by rewrite IH.
Qed.

Lemma map_results_blocks (shortest_decimal : Q → string)
    (results : list SearchResult) (idx : nat) (blocks : list string) :
  map_results shortest_decimal results idx = Normal blocks →
  length blocks = length results ∧
  ∀ i r, results !! i = Some r →
    ∃ b, blocks !! i = Some b ∧
         format_result shortest_decimal r (idx + i) = Normal b.
Proof.
  revert idx blocks. induction results as [|r0 results IH]; intros idx blocks; simpl.
  - intros [= <-]. split; [reflexivity|]. intros i r Hi. discriminate Hi.
  - destruct (format_result shortest_decimal r0 idx) as [b0|e] eqn:Hb0; [|discriminate].
    destruct (map_results shortest_decimal results (S idx)) as [bs|e] eqn:Hbs;
      [|discriminate].
    intros [= <-]. destruct (IH _ _ Hbs) as [Hlen Hnth].
    split; [simpl; by rewrite Hlen|].
    intros [|i] r Hi; simpl in Hi.
    + injection Hi as <-. exists b0. by rewrite Nat.add_0_r.
    + destruct (Hnth i r Hi) as (b & Hb & Hr). exists b. split; [exact Hb|].
      by rewrite <- Nat.add_succ_comm.
Qed.

(** X7: when the search text is produced it is the count line
    [Found N result(s):], an empty line, and either [No results found]
    for an empty response or one block per result separated by empty
    lines: no result is dropped or reordered, and the i-th block is the
    rendering of the i-th result numbered from 1. *)
Theorem X7_search_text_keeps_every_result (shortest_decimal : Q → string)
    (results : list SearchResult) (text : string) :
  format_search shortest_decimal results = Normal text →
  ∃ blocks : list string,
    length blocks = length results ∧
    (∀ i r, results !! i = Some r →
       ∃ b, blocks !! i = Some b ∧
            format_result shortest_decimal r i = Normal b ∧
            ∃ rest, b = decimal (Z.of_nat (i + 1)) +:+ ". " +:+ title r +:+ rest) ∧
    text = "Found " +:+ decimal (Z.of_nat (length results)) +:+ " result(s):" +:+
           LF +:+ LF +:+
           (match results with
            | [] => "No results found"
            | _ => join (LF +:+ LF) blocks
            end).
Proof.
  unfold format_search. destruct results as [|r0 results].
  - simpl. intros [= <-]. exists []. split_and!; [reflexivity| |reflexivity].
    intros i r Hi. discriminate Hi.
  - change (0 <? length (r0 :: results))%nat with true. cbv iota.
    destruct (map_results shortest_decimal (r0 :: results) 0) as [blocks|e] eqn:Hm;
      [|discriminate].
    intros [= <-]. exists blocks.
    destruct (map_results_blocks _ _ _ _ Hm) as [Hlen Hnth].
    split_and!; [exact Hlen| |reflexivity].
    intros i r Hi. destruct (Hnth i r Hi) as (b & Hb & Hr).
    exists b. split_and!; [exact Hb | exact Hr |].
    simpl in Hr. unfold format_result in Hr.
    destruct (negb (is_null (distance r))).
    + destruct (distance_toFixed shortest_decimal (distance r)) as [d|]; [|discriminate].
      injection Hr as <-. eexists. unfold join. cbn [String.concat app].
      rewrite !append_assoc. reflexivity.
    + injection Hr as <-. eexists. unfold join. cbn [String.concat].
      rewrite !append_assoc. reflexivity.
Qed.

(** Two results, the second one with a distance. *)
Lemma X7_search_text_keeps_every_result_witness :
  ∃ blocks : list string,
    length blocks = 2%nat ∧
    blocks !! 1%nat
    = Some (join LF [ "2. Roadmap"; "   UUID: u-2"; "   Summary: Plans";
                      "   Snippet: Q3";
                      "   Distance: 2.5000 (lower is more relevant)" ]).
Proof.
  destruct (X7_search_text_keeps_every_result (fun _ => "")
              [ {| title := "Notes"; uuid := "u-1"; summary := "Misc";
                   content_snippet := "todo"; distance := VNull |};
                {| title := "Roadmap"; uuid := "u-2"; summary := "Plans";
                   content_snippet := "Q3"; distance := VNumber (Finite (5 # 2)) |} ]
              _ eq_refl) as (blocks & Hlen & Hnth & _).
  exists blocks. split; [exact Hlen|].
  destruct (Hnth 1%nat _ eq_refl) as (b & Hb & Hr & _).
  rewrite Hb. f_equal. vm_compute in Hr. by injection Hr as <-.
Defined.

Lemma map_results_first_failure (shortest_decimal : Q → string)
    (good rest : list SearchResult) (r : SearchResult) (e : thrown) (idx : nat) :
  Forall (λ g, number_or_null (distance g)) good →
  format_result shortest_decimal r (idx + length good) = Abrupt e →
  map_results shortest_decimal (good ++ r :: rest) idx = Abrupt e.
Proof.
  revert idx. induction good as [|g good IH]; intros idx Hgood Hr; simpl.
  - rewrite Nat.add_0_r in Hr. by rewrite Hr.
  - apply Forall_cons in Hgood as [Hg Hgood].
    apply (format_result_normal_iff shortest_decimal g idx) in Hg as [b Hb].
    rewrite Hb. rewrite (IH (S idx)); [reflexivity | exact Hgood |].
    simpl in Hr. by rewrite <- Nat.add_succ_comm in Hr.
Qed.

(** X8: one result whose distance is neither a number nor [null]
    loses the whole response.  If the results before it are well formed,
    the search handler of either snapshot throws the error of that result
    behind its prefix, whatever follows it and however many results
    before it could have been rendered. *)
Theorem X8_first_malformed_result_fails_the_search (shortest_decimal : Q → string)
    (good rest : list SearchResult) (r : SearchResult) :
  Forall (λ g, number_or_null (distance g)) good →
  ¬ number_or_null (distance r) →
  ∃ message : string,
    (∀ idx, format_result shortest_decimal r idx = Abrupt (ThrowError message)) ∧
    format_search shortest_decimal (good ++ r :: rest) = Abrupt (ThrowError message) ∧
    (∀ (St : Type) (backend : ∀ R, Minimal.Skald R → St → settled R * St) (st : St)
       (a : Minimal.Search.Args),
       (backend _ (Minimal.search (Minimal.Search.searchParams a)) st).1
         = Fulfilled {| Minimal.results := good ++ r :: rest |} →
       result_of backend (Minimal.Search.handler shortest_decimal a) st
       = ErrorThrown ("Failed to search Skald memos: " +:+ message)) ∧
    (∀ (St : Type) (backend : ∀ R, Extended.Skald R → St → settled R * St) (st : St)
       (a : Extended.Search.Args),
       (backend _ (Extended.search (Extended.Search.searchParams a)) st).1
         = Fulfilled {| Extended.results := good ++ r :: rest |} →
       result_of backend (Extended.Search.handler shortest_decimal a) st
       = ErrorThrown ("Failed to search Skald memos: " +:+ message)).
Proof.
  intros Hgood Hr.
  assert (∃ message, ∀ idx,
            format_result shortest_decimal r idx = Abrupt (ThrowError message))
    as [message Hm].
  { unfold format_result, number_or_null in *.
    destruct (distance r) as [| |b|n|s|l|o]; simpl;
      try (eexists; intros idx; reflexivity).
    - destruct Hr. by left.
    - destruct Hr. right. by eexists. }
  assert (format_search shortest_decimal (good ++ r :: rest)
          = Abrupt (ThrowError message)) as Hs.
  { unfold format_search.
    rewrite (map_results_first_failure shortest_decimal good rest r
               (ThrowError message) 0 Hgood (Hm _)).
    by destruct good. }
  exists message. split_and!; [exact Hm | exact Hs | |].
  - intros St backend st a Hb. unfold Minimal.Search.handler.
    rewrite result_trace_await, Hb. simpl. by rewrite Hs.
  - intros St backend st a Hb. unfold Extended.Search.handler.
    rewrite result_trace_await, Hb. simpl. by rewrite Hs.
Qed.

(** Two good results followed by one whose distance is a string. *)
Lemma X8_first_malformed_result_fails_the_search_witness :
  format_search (fun _ => "")
    [ {| title := "A"; uuid := "1"; summary := "s"; content_snippet := "c";
         distance := VNull |};
      {| title := "B"; uuid := "2"; summary := "s"; content_snippet := "c";
         distance := VNumber (Finite (1 # 4)) |};
      {| title := "C"; uuid := "3"; summary := "s"; content_snippet := "c";
         distance := VString "0.3" |} ]
  = Abrupt (ThrowError "result.distance.toFixed is not a function").
Proof.
  destruct (X8_first_malformed_result_fails_the_search (fun _ => "")
              [ {| title := "A"; uuid := "1"; summary := "s"; content_snippet := "c";
                   distance := VNull |};
                {| title := "B"; uuid := "2"; summary := "s"; content_snippet := "c";
                   distance := VNumber (Finite (1 # 4)) |} ]
              []
              {| title := "C"; uuid := "3"; summary := "s"; content_snippet := "c";
                 distance := VString "0.3" |})
    as (message & Hm & Hs & _).
  - apply Forall_cons. split; [by left|].
    apply Forall_cons. split; [right; by eexists|]. apply Forall_nil_2.
  - intros [H | [n H]]; discriminate H.
  - specialize (Hm 0%nat). vm_compute in Hm. injection Hm as <-. exact Hs.
Defined.

(** ** Every tool, one call *)

Create HintDb invocations.
#[local] Hint Unfold
  Minimal.Chat.invoke Minimal.Chat.handler Minimal.Search.invoke Minimal.Search.handler
  CreateMemo.invoke CreateMemo.handler
  Extended.Chat.invoke Extended.Chat.handler
  Extended.Search.invoke Extended.Search.handler
  Extended.GetMemo.invoke Extended.GetMemo.handler
  Extended.UpdateMemo.invoke Extended.UpdateMemo.handler
  Extended.DeleteMemo.invoke Extended.DeleteMemo.handler : invocations.

(** Case analysis on the outcome of the schema of the tool at hand. *)
Ltac parsed_or_not :=
  match goal with
  | |- context [match ?p with Some _ => _ | None => Ret InvalidArguments end] =>
      destruct p
  end.

Lemma log_trace_await {E St A R} (backend : ∀ R, E R → St → settled R * St)
    (label arg : string) (c : E R) (f : settled R → A) (st : St) :
  log_of backend (ConsoleError label arg (Await c (fun r => Ret (f r)))) st
  = [Traced label arg; Called c].
Proof. unfold log_of. by rewrite run_trace_await. Qed.

(** X9: a call of any registered tool, in either snapshot, either ends
    at the schema with nothing traced and no client method called, or
    writes exactly one trace line and then calls exactly one client
    method, whatever that call answers; in the second case the outcome is
    never the schema's rejection. *)
Theorem X9_one_trace_then_one_call (shortest_decimal : Q → string)
    (n : string) (raw : gmap string value) :
  (∀ (t : tool Minimal.Skald) (St : Type)
     (backend : ∀ R, Minimal.Skald R → St → settled R * St) (st : St),
     find_tool (Minimal.tools shortest_decimal) n = Some t →
     run backend (invoke t raw) st = (InvalidArguments, st, []) ∨
     (one_traced_call (log_of backend (invoke t raw) st) ∧
      result_of backend (invoke t raw) st ≠ InvalidArguments)) ∧
  (∀ (t : tool Extended.Skald) (St : Type)
     (backend : ∀ R, Extended.Skald R → St → settled R * St) (st : St),
     find_tool (Extended.tools shortest_decimal) n = Some t →
     run backend (invoke t raw) st = (InvalidArguments, st, []) ∨
     (one_traced_call (log_of backend (invoke t raw) st) ∧
      result_of backend (invoke t raw) st ≠ InvalidArguments)).
Proof.
  split; intros t St backend st Ht; each_tool Ht; cbn [invoke];
    autounfold with invocations; parsed_or_not;
    try (left; reflexivity); right;
    rewrite log_trace_await, result_trace_await;
    (split; [by do 4 eexists |]);
    destruct (backend _ _ st).1; try discriminate;
    destruct (format_search _ _); discriminate.
Qed.

(** A valid get-memo call against a backend that rejects it. *)
Lemma X9_one_trace_then_one_call_witness :
  log_of (failing (ThrowError "down"))
    (Extended.GetMemo.invoke (fun _ => "") {["memo_id" := VString "m-1"]}) ()
  = [ Traced "Debug - Getting Skald memo:" "m-1";
      Called (Extended.getMemo "m-1" Extended.memo_uuid) ].
Proof.
  destruct (X9_one_trace_then_one_call (fun _ => "") "skald-get-memo"
              {["memo_id" := VString "m-1"]}) as [_ H].
  destruct (H _ unit (failing (ThrowError "down")) () eq_refl) as [H' | [_ _]].
  - discriminate H'.
  - reflexivity.
Defined.

(** X10: while every client call rejects with the same failure, a call
    of any registered tool that passes its schema throws an [Error] whose
    message is the prefix of that tool followed by the message of the
    failure, or by its string conversion when it is no [Error]. *)
Theorem X10_every_tool_reports_an_outage (shortest_decimal : Q → string)
    (n : string) (raw : gmap string value) (e : thrown) :
  (∀ (t : tool Minimal.Skald) (St : Type)
     (backend : ∀ R, Minimal.Skald R → St → settled R * St) (st : St),
     (∀ R c st', (backend R c st').1 = Rejected e) →
     find_tool (Minimal.tools shortest_decimal) n = Some t →
     result_of backend (invoke t raw) st = InvalidArguments ∨
     result_of backend (invoke t raw) st
     = ErrorThrown (failure_prefix n +:+ errorMessage shortest_decimal e)) ∧
  (∀ (t : tool Extended.Skald) (St : Type)
     (backend : ∀ R, Extended.Skald R → St → settled R * St) (st : St),
     (∀ R c st', (backend R c st').1 = Rejected e) →
     find_tool (Extended.tools shortest_decimal) n = Some t →
     result_of backend (invoke t raw) st = InvalidArguments ∨
     result_of backend (invoke t raw) st
     = ErrorThrown (failure_prefix n +:+ errorMessage shortest_decimal e)).
Proof.
  split; intros t St backend st Hb Ht; each_tool Ht; cbn [invoke];
    autounfold with invocations; parsed_or_not;
    try (left; reflexivity); right;
    rewrite result_trace_await, Hb; reflexivity.
Qed.

(** An update while the backend answers 503. *)
Lemma X10_every_tool_reports_an_outage_witness :
  result_of (failing (ThrowError "503"))
    (Extended.UpdateMemo.invoke (fun _ => "")
       {["memo_id" := VString "m-1"; "title" := VString "T"]}) ()
  = ErrorThrown "Failed to update Skald memo: 503".
Proof.
  destruct (X10_every_tool_reports_an_outage (fun _ => "") "skald-update-memo"
              {["memo_id" := VString "m-1"; "title" := VString "T"]}
              (ThrowError "503")) as [_ H].
  destruct (H _ unit (failing (ThrowError "503")) () (fun _ _ _ => eq_refl) eq_refl)
    as [H' | H'].
  - discriminate H'.
  - exact H'.
Defined.

(** ** The memo tools *)

Lemma z_id_type_read (v : value) : Extended.z_id_type v = id_type_read v.
Proof.
  unfold Extended.z_id_type, z_default, z_optional, z_enum, Extended.id_types, id_type_read.
  destruct v as [| | | |s| |]; try reflexivity.
  cbn [List.find fst].
  rewrite (String.eqb_sym "memo_uuid" s), (String.eqb_sym "reference_id" s).
  destruct (String.eqb s "memo_uuid"); [reflexivity|].
  destruct (String.eqb s "reference_id"); reflexivity.
Qed.

(** X11: the memo tools address the memo the caller named.  A get or
    delete call whose [memo_id] is a string and whose [id_type] is
    missing, [memo_uuid] or [reference_id] issues exactly one [getMemo],
    respectively [deleteMemo], with that very identifier and with the
    kind read from [id_type], [memo_uuid] when missing; any other
    [id_type] ends the call at the schema.  A valid update call issues
    exactly one [updateMemo] with the identifier and kind read the same
    way and with the shaped payload, even when that payload is empty. *)
Theorem X11_memo_tools_address_the_named_memo (shortest_decimal : Q → string)
    (raw : gmap string value) (St : Type)
    (backend : ∀ R, Extended.Skald R → St → settled R * St) (st : St) :
  (∀ m : string,
     prop raw "memo_id" = VString m →
     match id_type_read (prop raw "id_type") with
     | Some i =>
         calls_of backend (Extended.GetMemo.invoke shortest_decimal raw) st
         = [Called (Extended.getMemo m i)] ∧
         calls_of backend (Extended.DeleteMemo.invoke shortest_decimal raw) st
         = [Called (Extended.deleteMemo m i)]
     | None =>
         rejects (Extended.GetMemo.invoke shortest_decimal raw) ∧
         rejects (Extended.DeleteMemo.invoke shortest_decimal raw) ∧
         rejects (Extended.UpdateMemo.invoke shortest_decimal raw)
     end) ∧
  (∀ a : Extended.UpdateMemo.Args,
     Extended.UpdateMemo.parse raw = Some a →
     prop raw "memo_id" = VString (Extended.UpdateMemo.memo_id a) ∧
     id_type_read (prop raw "id_type") = Some (Extended.UpdateMemo.id_type a) ∧
     calls_of backend (Extended.UpdateMemo.invoke shortest_decimal raw) st
     = [Called (Extended.updateMemo (Extended.UpdateMemo.memo_id a)
                  (Extended.UpdateMemo.updateData a)
                  (Extended.UpdateMemo.id_type a))]).
Proof.
  split.
  - intros m Hm.
    unfold Extended.GetMemo.invoke, Extended.GetMemo.parse,
      Extended.DeleteMemo.invoke, Extended.DeleteMemo.parse,
      Extended.UpdateMemo.invoke, Extended.UpdateMemo.parse.
    rewrite Hm, z_id_type_read.
    destruct (id_type_read (prop raw "id_type")) as [i|]; simpl.
    + unfold Extended.GetMemo.handler, Extended.DeleteMemo.handler.
      by rewrite !calls_trace_await.
    + split_and!; intros St' backend' st'; reflexivity.
  - intros a Ha. unfold Extended.UpdateMemo.invoke. rewrite Ha.
    unfold Extended.UpdateMemo.handler. rewrite calls_trace_await.
    unfold Extended.UpdateMemo.parse in Ha. rewrite z_id_type_read in Ha.
    parsed_field Ha memo_id. parsed_field Ha id_type. parsed_field Ha title.
    parsed_field Ha content. parsed_field Ha metadata.
    parsed_field Ha client_reference_id. parsed_field Ha source.
    parsed_field Ha expiration_date. injection Ha as <-. simpl.
    split_and!; [by apply z_string_inv | reflexivity | reflexivity].
Qed.

(** An update that names a memo and changes nothing still reaches the
    backend, with an empty payload; a get by reference id. *)
Lemma X11_memo_tools_address_the_named_memo_witness :
  calls_of refusing
    (Extended.UpdateMemo.invoke (fun _ => "") {["memo_id" := VString "m-1"]}) ()
  = [Called (Extended.updateMemo "m-1" ∅ Extended.memo_uuid)] ∧
  calls_of refusing
    (Extended.GetMemo.invoke (fun _ => "")
       {["memo_id" := VString "ref-7"; "id_type" := VString "reference_id"]}) ()
  = [Called (Extended.getMemo "ref-7" Extended.reference_id)].
Proof.
  split.
  - destruct (X11_memo_tools_address_the_named_memo (fun _ => "")
                {["memo_id" := VString "m-1"]} unit refusing ()) as [_ H].
    destruct (H {| Extended.UpdateMemo.memo_id := "m-1";
                   Extended.UpdateMemo.id_type := Extended.memo_uuid;
                   Extended.UpdateMemo.title := None;
                   Extended.UpdateMemo.content := None;
                   Extended.UpdateMemo.metadata := None;
                   Extended.UpdateMemo.client_reference_id := None;
                   Extended.UpdateMemo.source := None;
                   Extended.UpdateMemo.expiration_date := None |} eq_refl)
      as (_ & _ & Hc).
    exact Hc.
  - destruct (X11_memo_tools_address_the_named_memo (fun _ => "")
                {["memo_id" := VString "ref-7"; "id_type" := VString "reference_id"]}
                unit refusing ()) as [H _].
    specialize (H "ref-7" eq_refl).
    change (id_type_read _) with (Some Extended.reference_id) in H.
    destruct H as [H _]. exact H.
Defined.

(** X12: when [updateMemo] resolves, the update handler returns a
    text and throws nothing: the confirmation
    [✓ Memo "<memo_id>" updated successfully!], which names the
    identifier the caller gave and not the title, when the result is
    flagged ok, and the text [Failed to update memo] otherwise. *)
Theorem X12_update_memo_answer (shortest_decimal : Q → string)
    (St : Type) (backend : ∀ R, Extended.Skald R → St → settled R * St) (st : St)
    (a : Extended.UpdateMemo.Args) (ok : bool) :
  (backend _ (Extended.updateMemo (Extended.UpdateMemo.memo_id a)
                (Extended.UpdateMemo.updateData a)
                (Extended.UpdateMemo.id_type a)) st).1
    = Fulfilled {| Extended.ok := ok |} →
  result_of backend (Extended.UpdateMemo.handler shortest_decimal a) st
  = TextContent
      (if ok
       then "✓ Memo " +:+ DQUOTE +:+ Extended.UpdateMemo.memo_id a +:+ DQUOTE +:+
            " updated successfully!"
       else "Failed to update memo").
Proof.
  intros Hb. unfold Extended.UpdateMemo.handler.
  rewrite result_trace_await, Hb. by destruct ok.
Qed.

(** An update of the title that the backend refuses. *)
Lemma X12_update_memo_answer_witness :
  result_of refusing
    (Extended.UpdateMemo.handler (fun _ => "")
       {| Extended.UpdateMemo.memo_id := "m-1";
          Extended.UpdateMemo.id_type := Extended.memo_uuid;
          Extended.UpdateMemo.title := Some "New";
          Extended.UpdateMemo.content := None;
          Extended.UpdateMemo.metadata := None;
          Extended.UpdateMemo.client_reference_id := None;
          Extended.UpdateMemo.source := None;
          Extended.UpdateMemo.expiration_date := None |}) ()
  = TextContent "Failed to update memo".
Proof.
  apply (X12_update_memo_answer (fun _ => "") unit refusing () _ false).
  reflexivity.
Defined.

(** X13: when [chat] resolves, the chat handler of either snapshot
    returns the answer itself if it is not empty and the text
    [No response received] if it is; the text it returns is never empty. *)
Theorem X13_chat_answer_or_placeholder (shortest_decimal : Q → string) :
  (∀ (St : Type) (backend : ∀ R, Minimal.Skald R → St → settled R * St) (st : St)
     (a : Minimal.Chat.Args) (answer : string),
     (backend _ (Minimal.chat (Minimal.Chat.chatParams a)) st).1
       = Fulfilled {| Minimal.response := answer |} →
     result_of backend (Minimal.Chat.handler shortest_decimal a) st
     = TextContent (if decide (answer = "") then "No response received" else answer) ∧
     result_of backend (Minimal.Chat.handler shortest_decimal a) st ≠ TextContent "") ∧
  (∀ (St : Type) (backend : ∀ R, Extended.Skald R → St → settled R * St) (st : St)
     (a : Extended.Chat.Args) (answer : string),
     (backend _ (Extended.chat (Extended.Chat.chatParams a)) st).1 = Fulfilled answer →
     result_of backend (Extended.Chat.handler shortest_decimal a) st
     = TextContent (if decide (answer = "") then "No response received" else answer) ∧
     result_of backend (Extended.Chat.handler shortest_decimal a) st ≠ TextContent "").
Proof.
  split; intros St backend st a answer Hb.
  - unfold Minimal.Chat.handler. rewrite result_trace_await, Hb.
    by destruct answer.
  - unfold Extended.Chat.handler. rewrite result_trace_await, Hb.
    by destruct answer.
Qed.

(** A backend whose chat answer is empty. *)
Lemma X13_chat_answer_or_placeholder_witness :
  result_of refusing
    (Extended.Chat.handler (fun _ => "")
       {| Extended.Chat.query := "q"; Extended.Chat.project_id := None;
          Extended.Chat.filters := None |}) ()
  = TextContent "No response received".
Proof.
  destruct (X13_chat_answer_or_placeholder (fun _ => "")) as [_ H].
  destruct (H unit refusing ()
              {| Extended.Chat.query := "q"; Extended.Chat.project_id := None;
                 Extended.Chat.filters := None |} "" eq_refl) as [H' _].
  exact H'.
Defined.

(** ** From the three-tool server to the six-tool server *)

(** X14: the six-tool server keeps the tools of the three-tool server.
    Every name registered there is registered here, and a lookup only
    ever returns the tool of the name asked for.  A chat call that was
    valid and carries no [filters] is still valid and sends the same
    payload; a create-memo call is parsed and shaped by the same code. *)
Theorem X14_six_tool_server_keeps_the_three_tools (shortest_decimal : Q → string) :
  (∀ n t, find_tool (Minimal.tools shortest_decimal) n = Some t →
          name t = n ∧ is_Some (find_tool (Extended.tools shortest_decimal) n)) ∧
  (∀ n t, find_tool (Extended.tools shortest_decimal) n = Some t → name t = n) ∧
  (∀ (raw : gmap string value) (a : Minimal.Chat.Args),
     prop raw "filters" = VUndefined →
     Minimal.Chat.parse raw = Some a →
     ∃ a', Extended.Chat.parse raw = Some a' ∧
           Extended.Chat.chatParams a' = Minimal.Chat.chatParams a) ∧
  invoke <$> find_tool (Minimal.tools shortest_decimal) "skald-create-memo"
    = Some (CreateMemo.invoke shortest_decimal Minimal.createMemo) ∧
  invoke <$> find_tool (Extended.tools shortest_decimal) "skald-create-memo"
    = Some (CreateMemo.invoke shortest_decimal Extended.createMemo).
Proof.
  split_and!.
  - intros n t Ht. each_tool Ht; (split; [reflexivity | by eexists]).
  - intros n t Ht. each_tool Ht; reflexivity.
  - intros raw a Hf. unfold Minimal.Chat.parse, Extended.Chat.parse, Extended.filterSchema.
    rewrite Hf.
    destruct (z_string (prop raw "query")) as [q|]; [|done]. simpl.
    destruct (z_optional z_string (prop raw "project_id")) as [p|]; [|done]. simpl.
    intros [= <-]. eexists. split; reflexivity.
  - reflexivity.
  - reflexivity.
Qed.

(** A chat call with a project and no filters. *)
Lemma X14_six_tool_server_keeps_the_three_tools_witness :
  ∃ a', Extended.Chat.parse
          {["query" := VString "q"; "project_id" := VString "p-1"]} = Some a' ∧
        Extended.Chat.chatParams a'
        = {["query" := VString "q"; "project_id" := VString "p-1"]}.
Proof.
  destruct (X14_six_tool_server_keeps_the_three_tools (fun _ => ""))
    as (_ & _ & H & _).
  assert (prop {["query" := VString "q"; "project_id" := VString "p-1"]} "filters"
          = VUndefined) as Hf by reflexivity.
  assert (Minimal.Chat.parse {["query" := VString "q"; "project_id" := VString "p-1"]}
          = Some {| Minimal.Chat.query := "q";
                    Minimal.Chat.project_id := Some "p-1" |}) as Hm by reflexivity.
  destruct (H _ _ Hf Hm) as (a' & Ha & Hp).
  exists a'. split; [exact Ha|]. rewrite Hp. reflexivity.
Defined.

(** X15: no search call is valid for both servers.  The search methods
    of the three-tool server and the one method of the six-tool server
    are different literals, so every call the first accepts ends at the
    schema of the second, and every call the second accepts ends at the
    schema of the first. *)
Theorem X15_search_methods_do_not_carry_over (shortest_decimal : Q → string)
    (raw : gmap string value) :
  (∀ a, Minimal.Search.parse raw = Some a →
        rejects (Extended.Search.invoke shortest_decimal raw)) ∧
  (∀ a, Extended.Search.parse raw = Some a →
        rejects (Minimal.Search.invoke shortest_decimal raw)).
Proof.
  split; intros a Ha St backend st.
  - unfold Minimal.Search.parse in Ha.
    parsed_field Ha query. parsed_field Ha search_method.
    apply minimal_search_method_inv in Esearch_method.
    unfold Extended.Search.invoke, Extended.Search.parse.
    rewrite Equery, Esearch_method. by destruct search_method.
  - unfold Extended.Search.parse in Ha.
    parsed_field Ha query. parsed_field Ha search_method.
    apply extended_search_method_inv in Esearch_method.
    unfold Minimal.Search.invoke, Minimal.Search.parse.
    rewrite Equery, Esearch_method. by destruct search_method.
Qed.

(** A title search of the three-tool server, sent to the six-tool one. *)
Lemma X15_search_methods_do_not_carry_over_witness :
  rejects (Extended.Search.invoke (fun _ => "")
             {["query" := VString "vision"; "search_method" := VString "title_contains"]}).
Proof.
  destruct (X15_search_methods_do_not_carry_over (fun _ => "")
              {["query" := VString "vision";
                "search_method" := VString "title_contains"]}) as [H _].
  apply (H {| Minimal.Search.query := "vision";
              Minimal.Search.search_method := Minimal.Search.title_contains;
              Minimal.Search.limit := Finite (inject_Z 10);
              Minimal.Search.tags := None |}).
  reflexivity.
Defined.

(** ** Start-up *)

Import Startup.


